(** * The quote-comparison chatbot: dialogue controller and serving boundary

    A shallow embedding of [statement_4_quote_comparison/main.py] and
    [statement_4_quote_comparison/app.py].  The functions [understand_question],
    [get_plans], [generate_answer] and [chat] are the same text in both files;
    they are embedded once.  The language-model provider and the vector store
    are external services: they are taken as an interface ([Services]) over an
    abstract [world], every call to them is recorded in the trace of the run,
    and every call may raise. *)

From Stdlib Require Import List String Ascii ZArith Bool Lia Floats DecimalString.
Import ListNotations.
Set Warnings "-register-all".
Local Open Scope list_scope.
Local Open Scope string_scope.

(** ** Python values

    What [json.loads] and [request.get_json] produce: the decoded reply of the
    classifier is used untyped by [chat], so the model keeps it untyped. A
    [str] is a Rocq [string]; a [dict] keeps its entries in insertion order,
    with distinct keys. *)

Module Py.

Inductive value : Type :=
| VNone
| VBool (b : bool)
| VInt (n : Z)
| VFloat (x : float)
| VStr (s : string)
| VList (items : list value)
| VDict (entries : list (string * value)).

(** What Python was doing to a value when it raised [TypeError]. *)
Inductive operation : Type :=
| Subscript     (* [operand[key]], the key a str *)
| Membership    (* [key in operand] *)
| Iteration     (* [for x in operand] *)
| Unpacking.    (* [a, b, c = operand] *)

(** The exceptions. [str(e)] of a [TypeError] or an [AttributeError] is a text
    Python builds from what was attempted and the type of the value it was
    attempted on: the exception carries both. An exception of a service
    carries its text. *)
Inductive exn : Type :=
| KeyError (key : string)
| TypeError (op : operation) (operand : value)
| AttributeError (attribute : string) (operand : value)
| ServiceError (detail : string).

Inductive Outcome (A : Type) : Type :=
| Returned (a : A)
| Raised (e : exn).
Arguments Returned {A} a.
Arguments Raised {A} e.

Definition nl : string := String (ascii_of_nat 10) EmptyString.
Definition dq : string := String (ascii_of_nat 34) EmptyString.
Definition lines (ls : list string) : string := String.concat nl ls.

(** [d.get(key)] on the entries of a dict. *)
Fixpoint dict_get (entries : list (string * value)) (key : string) : option value :=
  match entries with
  | [] => None
  | (k, v) :: rest => if String.eqb k key then Some v else dict_get rest key
  end.

(** [v[key]] for a [str] key: only a dict can answer, and only for a key it has. *)
Definition getitem (v : value) (key : string) : Outcome value :=
  match v with
  | VDict entries =>
      match dict_get entries key with
      | Some x => Returned x
      | None => Raised (KeyError key)
      end
  | _ => Raised (TypeError Subscript v)
  end.

(** [v == s] for a [str] literal [s]. *)
Definition eq_str (v : value) (s : string) : bool :=
  match v with
  | VStr t => String.eqb t s
  | _ => false
  end.

(** Truth value of [v], as [if v:] and [not v] test it. *)
Definition truthy (v : value) : bool :=
  match v with
  | VNone => false
  | VBool b => b
  | VInt n => negb (Z.eqb n 0)
  | VFloat x => negb (PrimFloat.eqb x 0%float)
  | VStr s => negb (String.eqb s EmptyString)
  | VList items => match items with [] => false | _ :: _ => true end
  | VDict entries => match entries with [] => false | _ :: _ => true end
  end.

Fixpoint is_substring (needle s : string) : bool :=
  String.prefix needle s
  || match s with
     | EmptyString => false
     | String _ rest => is_substring needle rest
     end.

(** [needle in v] for a [str] literal [needle]. *)
Definition contains (needle : string) (v : value) : Outcome bool :=
  match v with
  | VDict entries =>
      Returned (match dict_get entries needle with Some _ => true | None => false end)
  | VList items => Returned (existsb (fun x => eq_str x needle) items)
  | VStr s => Returned (is_substring needle s)
  | _ => Raised (TypeError Membership v)
  end.

End Py.
Import Py.

(** ** Messages, documents, history items *)

Inductive Role : Type := System | Human | AI.

Record Message : Type := mkMessage { role : Role; content : string }.

Definition SystemMessage (c : string) : Message := mkMessage System c.
Definition HumanMessage (c : string) : Message := mkMessage Human c.
Definition AIMessage (c : string) : Message := mkMessage AI c.

(** A langchain [Document] as [chroma_db_maker.py] stores it. *)
Record Document : Type := mkDocument {
  page_content : string;
  metadata : list (string * value)
}.

(** One entry of [history]: the dict [{"user", "bot", "plans"}] built by [chat],
    or the dict [{"user", "bot"}] kept in the web session, where the key
    ["plans"] is absent ([plans = None]). *)
Record HistoryItem : Type := mkItem {
  user : string;
  bot : string;
  plans : option (list Document)
}.

(** [item.get("plans", [])] *)
Definition get_plans_or_empty (item : HistoryItem) : list Document :=
  match plans item with
  | Some ps => ps
  | None => []
  end.

(** ** The prompt literals *)

(** The system prompt of [understand_question], main.py:54-91. *)
Definition CLASSIFIER_INSTRUCTIONS : string :=
  lines
    [ "You are a query classifier for an insurance comparison chatbot."
    ; EmptyString
    ; "Your job: Analyze user questions and extract premium amounts."
    ; EmptyString
    ; "Classification rules:"
    ; "1. NEW: User provides 2-3 premium amounts to compare"
    ; "   - Must have at least 2 numbers"
    ; "   - Can be any format: " ++ dq ++ "18000, 22500" ++ dq ++ " or " ++ dq ++ "compare 18k and 22.5k" ++ dq ++ " or " ++ dq ++ "18000 vs 22500" ++ dq
    ; EmptyString
    ; "2. FOLLOW_UP: User asks about previously shown results"
    ; "   - Questions like " ++ dq ++ "which is cheaper?" ++ dq ++ ", " ++ dq ++ "which has no deductible?" ++ dq ++ ", " ++ dq ++ "best for family of 4?" ++ dq
    ; "   - NO new premium amounts mentioned"
    ; EmptyString
    ; "3. INVALID:"
    ; "   - Only 1 premium amount (need at least 2)"
    ; "   - No premium amounts at all"
    ; "   - Not insurance related (like " ++ dq ++ "what is weather?" ++ dq ++ ")"
    ; "   - More than 3 premiums"
    ; EmptyString
    ; "Output format (JSON only):"
    ; "{"
    ; "  " ++ dq ++ "question_type" ++ dq ++ ": " ++ dq ++ "NEW" ++ dq ++ " | " ++ dq ++ "FOLLOW_UP" ++ dq ++ " | " ++ dq ++ "INVALID" ++ dq ++ ","
    ; "  " ++ dq ++ "premium_amounts" ++ dq ++ ": [list of numbers] or null,"
    ; "  " ++ dq ++ "reason" ++ dq ++ ": " ++ dq ++ "brief explanation" ++ dq
    ; "}"
    ; EmptyString
    ; "Examples:"
    ; "Input: " ++ dq ++ "compare 18000, 22500, 28000" ++ dq
    ; "Output: {" ++ dq ++ "question_type" ++ dq ++ ": " ++ dq ++ "NEW" ++ dq ++ ", " ++ dq ++ "premium_amounts" ++ dq ++ ": [18000, 22500, 28000], " ++ dq ++ "reason" ++ dq ++ ": " ++ dq ++ "3 premiums to compare" ++ dq ++ "}"
    ; EmptyString
    ; "Input: " ++ dq ++ "which one is cheaper?" ++ dq
    ; "Output: {" ++ dq ++ "question_type" ++ dq ++ ": " ++ dq ++ "FOLLOW_UP" ++ dq ++ ", " ++ dq ++ "premium_amounts" ++ dq ++ ": null, " ++ dq ++ "reason" ++ dq ++ ": " ++ dq ++ "Asking about previous results" ++ dq ++ "}"
    ; EmptyString
    ; "Input: " ++ dq ++ "show me 18000 plan" ++ dq
    ; "Output: {" ++ dq ++ "question_type" ++ dq ++ ": " ++ dq ++ "INVALID" ++ dq ++ ", " ++ dq ++ "premium_amounts" ++ dq ++ ": [18000], " ++ dq ++ "reason" ++ dq ++ ": " ++ dq ++ "Only 1 premium, need at least 2" ++ dq ++ "}"
    ; EmptyString
    ; "Input: " ++ dq ++ "what is the weather?" ++ dq
    ; "Output: {" ++ dq ++ "question_type" ++ dq ++ ": " ++ dq ++ "INVALID" ++ dq ++ ", " ++ dq ++ "premium_amounts" ++ dq ++ ": null, " ++ dq ++ "reason" ++ dq ++ ": " ++ dq ++ "Not insurance related" ++ dq ++ "}" ].

(** [sys_content] of [generate_answer], main.py:139-170. *)
Definition ADVISOR_INSTRUCTIONS : string :=
  lines
    [ "You are an expert insurance advisor who explains insurance plans in simple, easy-to-understand language."
    ; EmptyString
    ; "Your job: Compare insurance plans and help users make informed decisions."
    ; EmptyString
    ; "What to focus on:"
    ; "1. Premium (yearly cost) - Which is cheapest? Most expensive? Price differences?"
    ; "2. Sum Insured (coverage amount) - How much coverage do you get?"
    ; "3. Deductible (what you pay first) - Zero deductible is better. High deductible = you pay more when claiming"
    ; "4. Family Size (max members covered) - Important for families"
    ; "5. Waiting Periods - When coverage starts for certain conditions"
    ; "6. Room Rent Limits - Single AC, shared, ICU coverage"
    ; "7. Co-payment - Do you have to pay a % when claiming?"
    ; EmptyString
    ; "How to explain:"
    ; "- Use simple language (avoid jargon)"
    ; "- Use bullet points and tables for clarity"
    ; "- Explain trade-offs clearly"
    ; "  Example: " ++ dq ++ "Plan A is ₹4,500 cheaper per year BUT has a ₹25,000 deductible (you pay first ₹25k of any claim)" ++ dq
    ; "- Make specific recommendations based on user needs"
    ; "  Example: " ++ dq ++ "For a couple with no kids, Plan B is better because..." ++ dq
    ; "- Use comparisons: " ++ dq ++ "Plan A vs Plan B: Both cover family of 4, but Plan B has zero deductible" ++ dq
    ; EmptyString
    ; "What NOT to do:"
    ; "- Don't make up information"
    ; "- Don't mention plans that aren't provided"
    ; "- Don't use complex insurance terms without explaining them"
    ; "- Don't be vague - give specific numbers and reasons"
    ; EmptyString
    ; "Format:"
    ; "- Start with a quick summary table"
    ; "- Then detailed comparison"
    ; "- End with recommendation based on their question" ].


(** ** The interpreter's builtins and the external services *)

(** Builtins of Python the code calls and whose results no property below
    depends on. [json_loads s] is [None] when [json.loads(s)] raises. *)
Class Builtins : Type := {
  json_loads : string -> option value;
  py_repr : value -> string;              (* [repr(v)] *)
  str_chars : string -> list string;      (* the characters a [for] loop over a str visits *)
  str_strip : string -> string;           (* [s.strip()] *)
  exn_str : exn -> string                 (* [str(e)] *)
}.

(** The provider behind [llm1] and [llm2] and the store behind [vector_db].
    A call reads and may change the [world]; it returns or raises. *)
Class Services : Type := {
  world : Type;
  llm1_invoke : list Message -> world -> Outcome Message * world;
  llm2_invoke : list Message -> world -> Outcome Message * world;
  vector_db_similarity_search :
    string -> nat -> list (string * value) -> world -> Outcome (list Document) * world
}.

(** One call to a service, with what it was given and what came back. *)
Inductive Call : Type :=
| Llm1Invoke (messages : list Message) (res : Outcome Message)
| SimilaritySearch (query : string) (k : nat) (filter : list (string * value))
    (res : Outcome (list Document))
| Llm2Invoke (messages : list Message) (res : Outcome Message).

Definition is_store_call (c : Call) : bool :=
  match c with
  | SimilaritySearch _ _ _ _ => true
  | _ => false
  end.

(** The exception a call ended with, if it raised. *)
Definition call_raised (c : Call) : option exn :=
  match c with
  | Llm1Invoke _ (Raised e) => Some e
  | SimilaritySearch _ _ _ (Raised e) => Some e
  | Llm2Invoke _ (Raised e) => Some e
  | _ => None
  end.

(** ** Computations: world passing, exceptions, and the trace of service calls *)

Section Computation.

Context {S : Services}.

Record Run (A : Type) : Type := mkRun {
  result : Outcome A;
  after : world;
  calls : list Call
}.

Definition M (A : Type) : Type := world -> Run A.

Definition ret {A} (a : A) : M A := fun w => mkRun A (Returned a) w [].

Definition raise {A} (e : exn) : M A := fun w => mkRun A (Raised e) w [].

(** [r], after the calls in [trace] were made. *)
Definition prepend {A} (trace : list Call) (r : Run A) : Run A :=
  mkRun A (result A r) (after A r) (trace ++ calls A r)%list.

Definition bind {A C} (m : M A) (k : A -> M C) : M C :=
  fun w =>
    let r := m w in
    match result A r with
    | Returned a => prepend (calls A r) (k a (after A r))
    | Raised e => mkRun C (Raised e) (after A r) (calls A r)
    end.

Definition lift {A} (o : Outcome A) : M A :=
  match o with
  | Returned a => ret a
  | Raised e => raise e
  end.

(** [try: body except Exception as e: handler(e)] *)
Definition try_except {A} (body : M A) (handler : exn -> A) : M A :=
  fun w =>
    let r := body w in
    match result A r with
    | Returned _ => r
    | Raised e => mkRun A (Returned (handler e)) (after A r) (calls A r)
    end.

Definition llm1 (messages : list Message) : M Message :=
  fun w =>
    let (res, w') := llm1_invoke messages w in
    mkRun _ res w' [Llm1Invoke messages res].

Definition llm2 (messages : list Message) : M Message :=
  fun w =>
    let (res, w') := llm2_invoke messages w in
    mkRun _ res w' [Llm2Invoke messages res].

Definition similarity_search (query : string) (k : nat)
    (filter : list (string * value)) : M (list Document) :=
  fun w =>
    let (res, w') := vector_db_similarity_search query k filter w in
    mkRun _ res w' [SimilaritySearch query k filter res].

End Computation.

Arguments mkRun {S A}.
Arguments result {S A}.
Arguments after {S A}.
Arguments calls {S A}.

Notation "x <- c ;; k" := (bind c (fun x => k))
  (at level 61, c at next level, right associativity).

Section Chatbot.

Context {B : Builtins} {S : Services}.

(** *** Builtins that depend on [Builtins] *)

(** [str(v)], as an f-string formats [{v}]. *)
Definition py_str (v : value) : string :=
  match v with
  | VStr s => s
  | _ => py_repr v
  end.

(** The items a [for] loop over [v] visits. *)
Definition iterate (v : value) : Outcome (list value) :=
  match v with
  | VList items => Returned items
  | VStr s => Returned (map VStr (str_chars s))
  | VDict entries => Returned (map (fun kv => VStr (fst kv)) entries)
  | _ => Raised (TypeError Iteration v)
  end.

(** [v.strip()] *)
Definition strip (v : value) : Outcome string :=
  match v with
  | VStr s => Returned (str_strip s)
  | _ => Raised (AttributeError "strip" v)
  end.

(** *** main.py:42-106, [understand_question] *)

(** The dict returned when the reply of [llm1] does not decode. *)
Definition PARSE_FALLBACK : value :=
  VDict [ ("question_type", VStr "INVALID");
          ("premium_amounts", VNone);
          ("reason", VStr "Error parsing AI response") ].

(** The two messages [understand_question] sends to [llm1], main.py:45-97. *)
Definition classifier_messages (question : string) (prev_questions : list string)
  : list Message :=
  let prev_context :=
    match prev_questions with
    | [] => "None"
    | _ :: _ => fold_left (fun acc q => acc ++ "- " ++ q ++ nl) prev_questions EmptyString
    end in
  let system_msg := SystemMessage CLASSIFIER_INSTRUCTIONS in
  let human_msg :=
    HumanMessage ("Previous questions asked by user:" ++ prev_context
                  ++ " Current question: " ++ dq ++ question ++ dq ++ nl
                  ++ "        Classify this question and extract premium amounts.") in
  [system_msg; human_msg].

Definition understand_question (question : string) (prev_questions : list string)
  : M value :=
  response <- llm1 (classifier_messages question prev_questions) ;;
  match json_loads (content response) with
  | Some decoded => ret decoded
  | None => ret PARSE_FALLBACK
  end.

(** *** main.py:109-123, [get_plans] *)

(** The [for] loop, with the list [plans] built so far. *)
Fixpoint get_plans_from (plans : list Document) (premiums : list value)
  : M (list Document) :=
  match premiums with
  | [] => ret plans
  | premium :: rest =>
      results <- similarity_search ("insurance plan " ++ py_str premium) 1
                   [("premium", premium)] ;;
      match results with
      | first :: _ => get_plans_from (plans ++ [first])%list rest
      | [] => get_plans_from plans rest
      end
  end.

Definition get_plans (premiums : value) : M (list Document) :=
  items <- lift (iterate premiums) ;;
  get_plans_from [] items.

(** *** main.py:126-190, [generate_answer] *)

(** The messages [generate_answer] sends to [llm2], main.py:129-186: the
    system prompt, the history replayed oldest first as user and assistant
    messages, then the question with the text of the plans. *)
Definition advisor_messages (question : string) (plans : list Document)
    (history : list HistoryItem) : list Message :=
  let plan_text :=
    match plans with
    | _ :: _ => fold_left (fun acc plan => acc ++ page_content plan ++ nl ++ nl)
                  plans EmptyString
    | [] => "No plans available"
    end in
  let messages := [SystemMessage ADVISOR_INSTRUCTIONS] in
  let messages :=
    match history with
    | _ :: _ =>
        fold_left (fun acc item =>
                     (acc ++ [HumanMessage (user item); AIMessage (bot item)])%list)
          history messages
    | [] => messages
    end in
  let current_question :=
    HumanMessage ("Here are the insurance plans to compare:" ++ plan_text ++ nl
                  ++ "    User's question: " ++ question ++ nl
                  ++ "    Please compare these plans and answer the user's question in simple, clear terms.") in
  (messages ++ [current_question])%list.

Definition generate_answer (question : string) (plans : list Document)
    (history : list HistoryItem) : M string :=
  response <- llm2 (advisor_messages question plans history) ;;
  ret (content response).

(** *** main.py:193-250, [chat] *)

Definition INVALID_PREFIX : string :=
  "Please provide 2-3 premium amounts to compare." ++ nl
  ++ "Example: 'compare 18000, 22500, 28000'" ++ nl ++ nl
  ++ "Reason: ".

Definition EMPTY_HISTORY_MESSAGE : string :=
  "Please ask a comparison question first with 2-3 premiums.".

Definition Reply : Type := (string * list HistoryItem * list string)%type.

(** [chat] returns the tuple [(answer, history, prev_questions)], or falls off
    its end and returns Python's [None] (here [None]). [history + [item]]
    builds a new list: the lists passed in are never changed. *)
Definition chat (question : string) (history : list HistoryItem)
    (prev_questions : list string) : M (option Reply) :=
  understanding <- understand_question question prev_questions ;;
  q_type <- lift (getitem understanding "question_type") ;;
  premiums <- lift (getitem understanding "premium_amounts") ;;
  if eq_str q_type "INVALID" then
    reason <- lift (getitem understanding "reason") ;;
    ret (Some (INVALID_PREFIX ++ py_str reason, history, prev_questions))
  else if eq_str q_type "NEW" then
    plans <- get_plans premiums ;;
    match plans with
    | [] =>
        ret (Some ("No plans found for premiums: " ++ py_str premiums,
                   history, prev_questions))
    | _ :: _ =>
        answer <- generate_answer question plans history ;;
        let new_history_item := mkItem question answer (Some plans) in
        let updated_history := (history ++ [new_history_item])%list in
        let updated_questions := (prev_questions ++ [question])%list in
        ret (Some (answer, updated_history, updated_questions))
    end
  else if eq_str q_type "FOLLOW_UP" then
    match history with
    | [] => ret (Some (EMPTY_HISTORY_MESSAGE, history, prev_questions))
    | first :: _ =>
        let last_plans := get_plans_or_empty (last history first) in
        answer <- generate_answer question last_plans history ;;
        let new_history_item := mkItem question answer (Some last_plans) in
        let updated_history := (history ++ [new_history_item])%list in
        let updated_questions := (prev_questions ++ [question])%list in
        ret (Some (answer, updated_history, updated_questions))
    end
  else ret None.

(** *** main.py:300-320, the state update of the main loop

    [answer, history, prev_questions = chat(user_input, history, prev_questions)]
    for each input that reaches it, in order; the answers are what the loop
    prints. Unpacking the [None] of [chat] raises. *)

Definition unpack (r : option Reply) : M Reply :=
  match r with
  | Some reply => ret reply
  | None => raise (TypeError Unpacking VNone)
  end.

Fixpoint process_utterances (inputs : list string) (history : list HistoryItem)
    (prev_questions : list string) : M (list string * list HistoryItem * list string) :=
  match inputs with
  | [] => ret ([], history, prev_questions)
  | user_input :: rest =>
      r <- chat user_input history prev_questions ;;
      reply <- unpack r ;;
      let '(answer, history, prev_questions) := reply in
      out <- process_utterances rest history prev_questions ;;
      let '(answers, history, prev_questions) := out in
      ret (answer :: answers, history, prev_questions)
  end.

(** *** app.py:238-300, the serving boundary *)

(** The Flask session: the keys ['history'] and ['prev_questions'], each
    present or not. *)
Record Session : Type := mkSession {
  session_history : option (list HistoryItem);
  session_prev_questions : option (list string)
}.

(** [session.get(key, [])] *)
Definition get_or_empty {A} (field : option (list A)) : list A :=
  match field with
  | Some l => l
  | None => []
  end.

(** [jsonify(body), status] *)
Record Response : Type := mkResponse {
  body : list (string * value);
  status : nat
}.

Definition home (session : Session) : Session :=
  mkSession
    (match session_history session with
     | None => Some []
     | Some h => Some h
     end)
    (match session_prev_questions session with
     | None => Some []
     | Some q => Some q
     end).

(** [request_json] is what [request.get_json()] does: return the decoded body
    or raise. *)
Definition chat_endpoint (request_json : Outcome value) (session : Session)
  : M (Response * Session) :=
  try_except
    (data <- lift request_json ;;
     missing <- (if negb (truthy data) then ret true
                 else (present <- lift (contains "message" data) ;;
                       ret (negb present))) ;;
     if (missing : bool) then
       ret (mkResponse [("success", VBool false); ("error", VStr "message is required")] 400,
            session)
     else
       raw <- lift (getitem data "message") ;;
       message <- lift (strip raw) ;;
       if String.eqb message EmptyString then
         ret (mkResponse [("success", VBool false);
                          ("error", VStr "message cannot be empty")] 400,
              session)
       else
         let history := get_or_empty (session_history session) in
         let prev_questions := get_or_empty (session_prev_questions session) in
         r <- chat message history prev_questions ;;
         reply <- unpack r ;;
         let '(answer, updated_history, updated_questions) := reply in
         let serializable_history :=
           map (fun item => mkItem (user item) (bot item) None) updated_history in
         ret (mkResponse [("success", VBool true); ("response", VStr answer)] 200,
              mkSession (Some serializable_history) (Some updated_questions)))
    (fun e =>
       (mkResponse [("success", VBool false); ("error", VStr (exn_str e))] 500,
        session)).

Definition reset_conversation (session : Session) : Response * Session :=
  (mkResponse [("success", VBool true)] 200, mkSession (Some []) (Some [])).

End Chatbot.

(** ** Observations on runs

    What the statements below say about a run: the lookups the retriever
    makes, how the classifier replied, and the outcome of one utterance in
    the words of the design (rejected, no match, empty history, committed). *)

Section Observations.

Context {B : Builtins} {S : Services}.

(** What [get_plans] keeps of the result of one lookup: [results[0]] when
    [results] is not empty. *)
Definition first_hit (results : list Document) : list Document :=
  match results with
  | first :: _ => [first]
  | [] => []
  end.

(** The lookup [get_plans] makes for [key], answered with [hits]. *)
Definition lookup_of (key : value) (hits : list Document) : Call :=
  SimilaritySearch ("insurance plan " ++ py_str key) 1 [("premium", key)] (Returned hits).

(** The dict [understand_question] returns when [llm1] replies [response]. *)
Definition understanding_of (response : Message) : value :=
  match json_loads (content response) with
  | Some decoded => decoded
  | None => PARSE_FALLBACK
  end.

Definition has_key (key : string) (understanding : value) : bool :=
  match getitem understanding key with
  | Returned _ => true
  | Raised _ => false
  end.

Definition question_type_is (t : string) (understanding : value) : bool :=
  match getitem understanding "question_type" with
  | Returned q_type => eq_str q_type t
  | Raised _ => false
  end.

Definition reason_is (reason : string) (understanding : value) : bool :=
  match getitem understanding "reason" with
  | Returned r => eq_str r reason
  | Raised _ => false
  end.

(** Every reply of the classifier recorded in [trace] satisfies [p]. *)
Definition classifier_replied (p : value -> bool) (trace : list Call) : bool :=
  forallb (fun c =>
             match c with
             | Llm1Invoke _ (Returned response) => p (understanding_of response)
             | Llm1Invoke _ (Raised _) => false
             | _ => true
             end) trace.

Definition no_store_call (trace : list Call) : bool :=
  forallb (fun c => negb (is_store_call c)) trace.

(** The outcomes of one utterance, as the design names them. *)
Inductive StepOutcome : Type :=
| Rejected            (* INVALID intent *)
| NoMatch             (* NEW intent, the fetch found nothing *)
| EmptyHistory        (* FOLLOW_UP intent, no turn yet *)
| CommittedNew        (* NEW intent, records found *)
| CommittedFollowUp.  (* FOLLOW_UP intent, a turn to follow up on *)

Definition committed (o : option StepOutcome) : bool :=
  match o with
  | Some CommittedNew | Some CommittedFollowUp => true
  | _ => false
  end.

(** The outcome of [question] in the state [history], [prev_questions], read
    off the classifier's reply and the fetch in the world [w]; [None] when
    there is no reply to read or the intent is none of the three. *)
Definition step_outcome (question : string) (history : list HistoryItem)
    (prev_questions : list string) (w : world) : option StepOutcome :=
  let classified := understand_question question prev_questions w in
  match result classified with
  | Raised _ => None
  | Returned understanding =>
      if question_type_is "INVALID" understanding then Some Rejected
      else if question_type_is "NEW" understanding then
        match getitem understanding "premium_amounts" with
        | Raised _ => None
        | Returned premiums =>
            match result (get_plans premiums (after classified)) with
            | Returned [] => Some NoMatch
            | Returned (_ :: _) => Some CommittedNew
            | Raised _ => None
            end
        end
      else if question_type_is "FOLLOW_UP" understanding then
        match history with
        | [] => Some EmptyHistory
        | _ :: _ => Some CommittedFollowUp
        end
      else None
  end.

(** The outcomes of a sequence of utterances, each in the state and world the
    ones before it left. *)
Fixpoint outcomes (inputs : list string) (history : list HistoryItem)
    (prev_questions : list string) (w : world) : list (option StepOutcome) :=
  match inputs with
  | [] => []
  | user_input :: rest =>
      let step := chat user_input history prev_questions w in
      step_outcome user_input history prev_questions w
      :: match result step with
         | Returned (Some (_, history', prev_questions')) =>
             outcomes rest history' prev_questions' (after step)
         | _ => []
         end
  end.

(** [m] lets the exception of a service call through: whenever a call in its
    trace raised [e], the run itself raised [e]. *)
Definition propagates {A} (m : M A) : Prop :=
  forall (w : world) (c : Call) (e : exn),
    In c (calls (m w)) -> call_raised c = Some e -> result (m w) = Raised e.

(** The two logs of the web session have the same length. *)
Definition session_lengths_agree (session : Session) : Prop :=
  List.length (get_or_empty (session_history session))
  = List.length (get_or_empty (session_prev_questions session)).

(** The invariant of the web session: no stored item has the key ["plans"]. *)
Definition stored_without_plans (session : Session) : Prop :=
  Forall (fun item => plans item = None) (get_or_empty (session_history session)).

End Observations.

(** ** The command-line loop and further observations *)

Section MainLoop.

Context {B : Builtins} {S : Services}.

(** [s.lower()], a builtin like those of [Builtins]. *)
Variable str_lower : string -> string.

(** How the loop of main.py:304-320 stops: at [break], or because [input()]
    has no line left to return and raises [EOFError]. *)
Inductive LoopEnd : Type :=
| UserExit
| EndOfInput.

(** [user_input.lower() in ["exit", "quit"]] *)
Definition is_exit_command (user_input : string) : bool :=
  let lowered := str_lower user_input in
  String.eqb lowered "exit" || String.eqb lowered "quit".

(** *** main.py:300-320, the main loop

    [stdin] holds the lines [input()] returns, in order. The loop returns the
    answers it printed, the state it ended with and how it ended; an
    exception of [chat], or unpacking its [None], ends it by raising. *)
Fixpoint main_loop (stdin : list string) (history : list HistoryItem)
    (prev_questions : list string)
  : M (list string * list HistoryItem * list string * LoopEnd) :=
  match stdin with
  | [] => ret ([], history, prev_questions, EndOfInput)
  | line :: rest =>
      let user_input := str_strip line in
      if is_exit_command user_input then
        ret ([], history, prev_questions, UserExit)
      else if String.eqb user_input EmptyString then
        main_loop rest history prev_questions
      else
        r <- chat user_input history prev_questions ;;
        reply <- unpack r ;;
        let '(answer, history, prev_questions) := reply in
        out <- main_loop rest history prev_questions ;;
        let '(answers, history, prev_questions, ending) := out in
        ret (answer :: answers, history, prev_questions, ending)
  end.

(** The inputs the loop hands to [chat]: the stripped lines that are not
    empty, up to the first exit command. *)
Fixpoint utterances_of (stdin : list string) : list string :=
  match stdin with
  | [] => []
  | line :: rest =>
      let user_input := str_strip line in
      if is_exit_command user_input then []
      else if String.eqb user_input EmptyString then utterances_of rest
      else user_input :: utterances_of rest
  end.

Fixpoint ending_of (stdin : list string) : LoopEnd :=
  match stdin with
  | [] => EndOfInput
  | line :: rest =>
      if is_exit_command (str_strip line) then UserExit else ending_of rest
  end.

End MainLoop.

Section MoreObservations.

Context {B : Builtins} {S : Services}.

Definition is_generator_call (c : Call) : bool :=
  match c with
  | Llm2Invoke _ _ => true
  | _ => false
  end.

(** The two messages one history item is replayed as. *)
Definition replay (item : HistoryItem) : list Message :=
  [HumanMessage (user item); AIMessage (bot item)].

(** The text of the last message [generate_answer] sends. *)
Definition question_text (question : string) (plans : list Document) : string :=
  "Here are the insurance plans to compare:"
  ++ match plans with
     | [] => "No plans available"
     | _ :: _ => String.concat EmptyString
                   (map (fun plan => page_content plan ++ nl ++ nl) plans)
     end
  ++ nl ++ "    User's question: " ++ question ++ nl
  ++ "    Please compare these plans and answer the user's question in simple, clear terms.".

(** The question log is the list of the questions of the history. *)
Definition question_log_matches (history : list HistoryItem)
    (prev_questions : list string) : Prop :=
  map user history = prev_questions.

(** A request whose body is a JSON object with a string under ["message"]. *)
Definition message_request (entries : list (string * value)) (raw : string) : Prop :=
  dict_get entries "message" = Some (VStr raw).

(** The answers of the endpoint that never reach [chat]. *)
Definition refusal (code : nat) (text : string) : Response :=
  mkResponse [("success", VBool false); ("error", VStr text)] code.

End MoreObservations.

(** ** A scripted instance of the builtins and services

    Used to run the controller on concrete conversations. The provider's
    replies are scripted in the world and consumed one per call; the store
    answers an exact-match filter from a fixed list of documents. The builtins
    agree with Python's on the values used in the examples. *)

Module Demo.

Definition jstr (s : string) : string := dq ++ s ++ dq.

Definition reply_text (question_type premium_amounts reason : string) : string :=
  "{" ++ jstr "question_type" ++ ": " ++ jstr question_type ++ ", "
  ++ jstr "premium_amounts" ++ ": " ++ premium_amounts ++ ", "
  ++ jstr "reason" ++ ": " ++ jstr reason ++ "}".

Definition reply_value (question_type : string) (premium_amounts : value)
    (reason : string) : value :=
  VDict [ ("question_type", VStr question_type);
          ("premium_amounts", premium_amounts);
          ("reason", VStr reason) ].

Definition NEW_REPLY : string :=
  reply_text "NEW" "[18000, 22500, 28000]" "3 premiums to compare".
Definition NEW_UNKNOWN_REPLY : string :=
  reply_text "NEW" "[11111, 99999]" "2 premiums to compare".
Definition FOLLOW_UP_REPLY : string :=
  reply_text "FOLLOW_UP" "null" "Asking about previous results".
Definition INVALID_REPLY : string :=
  reply_text "INVALID" "null" "Not insurance related".
Definition GREETING_REPLY : string :=
  reply_text "GREETING" "null" "User says hello".
Definition NO_TYPE_REPLY : string :=
  "{" ++ jstr "premium_amounts" ++ ": null}".
Definition NO_PREMIUMS_REPLY : string :=
  "{" ++ jstr "question_type" ++ ": " ++ jstr "FOLLOW_UP" ++ "}".
Definition LIST_REPLY : string := "[]".
Definition GARBLED_REPLY : string := "Sorry, I cannot classify that.".

(** [json.loads] on the reply texts above; [GARBLED_REPLY] is not JSON. *)
Definition decode_table : list (string * value) :=
  [ (NEW_REPLY,
     reply_value "NEW" (VList [VInt 18000; VInt 22500; VInt 28000]) "3 premiums to compare");
    (NEW_UNKNOWN_REPLY,
     reply_value "NEW" (VList [VInt 11111; VInt 99999]) "2 premiums to compare");
    (FOLLOW_UP_REPLY, reply_value "FOLLOW_UP" VNone "Asking about previous results");
    (INVALID_REPLY, reply_value "INVALID" VNone "Not insurance related");
    (GREETING_REPLY, reply_value "GREETING" VNone "User says hello");
    (NO_TYPE_REPLY, VDict [("premium_amounts", VNone)]);
    (NO_PREMIUMS_REPLY, VDict [("question_type", VStr "FOLLOW_UP")]);
    (LIST_REPLY, VList []) ].

Definition demo_json_loads (s : string) : option value := dict_get decode_table s.

Definition join (sep : string) (parts : list string) : string := String.concat sep parts.

Fixpoint demo_repr (v : value) : string :=
  match v with
  | VNone => "None"
  | VBool true => "True"
  | VBool false => "False"
  | VInt n => NilZero.string_of_int (Z.to_int n)
  | VFloat _ => "<float>"
  | VStr s => "'" ++ s ++ "'"
  | VList items => "[" ++ join ", " (map demo_repr items) ++ "]"
  | VDict entries =>
      "{" ++ join ", " (map (fun kv => "'" ++ fst kv ++ "': " ++ demo_repr (snd kv)) entries)
      ++ "}"
  end.

Definition is_space (c : ascii) : bool :=
  let n := nat_of_ascii c in
  Nat.eqb n 32 || (Nat.leb 9 n && Nat.leb n 13) || (Nat.leb 28 n && Nat.leb n 31).

Fixpoint lstrip (s : string) : string :=
  match s with
  | String c rest => if is_space c then lstrip rest else s
  | EmptyString => EmptyString
  end.

Fixpoint rstrip (s : string) : string :=
  match s with
  | String c rest =>
      match rstrip rest with
      | EmptyString => if is_space c then EmptyString else String c EmptyString
      | kept => String c kept
      end
  | EmptyString => EmptyString
  end.

(** [type(v).__name__] *)
Definition type_name (v : value) : string :=
  match v with
  | VNone => "NoneType"
  | VBool _ => "bool"
  | VInt _ => "int"
  | VFloat _ => "float"
  | VStr _ => "str"
  | VList _ => "list"
  | VDict _ => "dict"
  end.

(** [str(e)], with the texts of CPython 3.11 and 3.12. *)
Definition demo_exn_str (e : exn) : string :=
  match e with
  | KeyError key => "'" ++ key ++ "'"
  | TypeError Subscript (VList _) => "list indices must be integers or slices, not str"
  | TypeError Subscript (VStr _) => "string indices must be integers, not 'str'"
  | TypeError Subscript v => "'" ++ type_name v ++ "' object is not subscriptable"
  | TypeError Membership v => "argument of type '" ++ type_name v ++ "' is not iterable"
  | TypeError Iteration v => "'" ++ type_name v ++ "' object is not iterable"
  | TypeError Unpacking v => "cannot unpack non-iterable " ++ type_name v ++ " object"
  | AttributeError attribute v =>
      "'" ++ type_name v ++ "' object has no attribute '" ++ attribute ++ "'"
  | ServiceError detail => detail
  end.

Definition builtins : Builtins := {|
  json_loads := demo_json_loads;
  py_repr := demo_repr;
  str_chars := fun s => map (fun c => String c EmptyString) (list_ascii_of_string s);
  str_strip := fun s => rstrip (lstrip s);
  exn_str := demo_exn_str
|}.

Record Scripted : Type := mkScripted {
  classifier_script : list (Outcome string);
  advisor_script : list (Outcome string);
  store : list Document
}.

Definition as_message (o : Outcome string) : Outcome Message :=
  match o with
  | Returned text => Returned (AIMessage text)
  | Raised e => Raised e
  end.

Definition same_key (a b : value) : bool :=
  match a, b with
  | VInt x, VInt y => Z.eqb x y
  | VStr x, VStr y => String.eqb x y
  | _, _ => false
  end.

Definition matches (filter : list (string * value)) (doc : Document) : bool :=
  forallb (fun kv =>
             match dict_get (metadata doc) (fst kv) with
             | Some v => same_key v (snd kv)
             | None => false
             end) filter.

Definition services : Services := {|
  world := Scripted;
  llm1_invoke := fun _ w =>
    match classifier_script w with
    | reply :: rest => (as_message reply, mkScripted rest (advisor_script w) (store w))
    | [] => (Raised (ServiceError "no reply"), w)
    end;
  llm2_invoke := fun _ w =>
    match advisor_script w with
    | reply :: rest => (as_message reply, mkScripted (classifier_script w) rest (store w))
    | [] => (Raised (ServiceError "no reply"), w)
    end;
  vector_db_similarity_search := fun _ k filter w =>
    (Returned (firstn k (List.filter (matches filter) (store w))), w)
|}.

Definition plan (name : string) (premium : Z) : Document :=
  mkDocument name [("premium", VInt premium)].

Definition PLAN_A : Document := plan "Plan A: premium 18000, deductible 25000" 18000.
Definition PLAN_B : Document := plan "Plan B: premium 22500, no deductible" 22500.
Definition PLAN_C : Document := plan "Plan C: premium 28000, no deductible" 28000.

(** Stored in another order than the one any question asks for. *)
Definition STORE : list Document := [PLAN_C; PLAN_A; PLAN_B].

Definition scripted (classifier advisor : list (Outcome string)) : Scripted :=
  mkScripted classifier advisor STORE.

Definition Q_COMPARE : string := "compare 18000, 22500, 28000".
Definition Q_CHEAPER : string := "which is cheaper?".
Definition Q_DEDUCTIBLE : string := "which has no deductible?".
Definition Q_WEATHER : string := "what is the weather?".
Definition Q_UNKNOWN : string := "compare 11111 and 99999".

Definition A_COMPARE : string := "Plan A is the cheapest; B and C have no deductible.".
Definition A_CHEAPER : string := "Plan A, at 18000 a year.".
Definition A_DEDUCTIBLE : string := "Plans B and C.".

(** The plans in the order [Q_COMPARE] names them. *)
Definition COMPARED : list Document := [PLAN_A; PLAN_B; PLAN_C].

Definition TURN_COMPARE : HistoryItem := mkItem Q_COMPARE A_COMPARE (Some COMPARED).
Definition TURN_CHEAPER : HistoryItem := mkItem Q_CHEAPER A_CHEAPER (Some COMPARED).
Definition TURN_DEDUCTIBLE : HistoryItem :=
  mkItem Q_DEDUCTIBLE A_DEDUCTIBLE (Some COMPARED).

(** What the web session keeps of [TURN_COMPARE]. *)
Definition STORED_COMPARE : HistoryItem := mkItem Q_COMPARE A_COMPARE None.

Definition OUTAGE : exn := ServiceError "provider unavailable".

End Demo.

(** ** More scripted replies, and a lower-casing for the loop *)

Module DemoMore.

Import Demo.

Definition NEW_NULL_REPLY : string :=
  reply_text "NEW" "null" "premiums not extracted".

(** [json.loads] on the reply texts of [Demo] and on [NEW_NULL_REPLY]. *)
Definition more_json_loads (s : string) : option value :=
  if String.eqb s NEW_NULL_REPLY
  then Some (reply_value "NEW" VNone "premiums not extracted")
  else demo_json_loads s.

Definition builtins : Builtins := {|
  json_loads := more_json_loads;
  py_repr := demo_repr;
  str_chars := fun s => map (fun c => String c EmptyString) (list_ascii_of_string s);
  str_strip := fun s => rstrip (lstrip s);
  exn_str := demo_exn_str
|}.

Definition lower_char (c : ascii) : ascii :=
  let n := nat_of_ascii c in
  if Nat.leb 65 n && Nat.leb n 90 then ascii_of_nat (n + 32) else c.

(** [s.lower()] on ASCII text. *)
Fixpoint lower (s : string) : string :=
  match s with
  | EmptyString => EmptyString
  | String c rest => String (lower_char c) (lower rest)
  end.

(** [PLAN_A] as another store could hold it: same text, other metadata. *)
Definition PLAN_A_BARE : Document := mkDocument (page_content PLAN_A) [].

Definition body_with (message : value) : value := VDict [("message", message)].

Definition STORED_SESSION : Session := mkSession (Some [STORED_COMPARE]) (Some [Q_COMPARE]).

End DemoMore.

(** * Properties *)

Section Properties.

Context {B : Builtins} {S : Services}.

(** ** Runs of the monad *)

Lemma bind_returned {A C} (m : M A) (k : A -> M C) (w : world) (a : A) :
  result (m w) = Returned a ->
  bind m k w = prepend (calls (m w)) (k a (after (m w))).
Proof. intros H. unfold bind. rewrite H. reflexivity. Qed.

Lemma bind_raised {A C} (m : M A) (k : A -> M C) (w : world) (e : exn) :
  result (m w) = Raised e ->
  bind m k w = mkRun (Raised e) (after (m w)) (calls (m w)).
Proof. intros H. unfold bind. rewrite H. reflexivity. Qed.

Lemma prepend_nil {A} (r : Run A) : prepend [] r = r.
Proof. now destruct r. Qed.

Lemma bind_ret {A C} (a : A) (k : A -> M C) (w : world) : bind (ret a) k w = k a w.
Proof. unfold bind. cbn. apply prepend_nil. Qed.

Lemma bind_bind {A C D} (m : M A) (f : A -> M C) (k : C -> M D) (w : world) :
  bind (bind m f) k w = bind m (fun a => bind (f a) k) w.
Proof.
  unfold bind, prepend. destruct (m w) as [[a|e] w1 c1]; cbn; [|reflexivity].
  destruct (f a w1) as [[b|e] w2 c2]; cbn; [|reflexivity].
  now rewrite app_assoc.
Qed.

Lemma try_except_run {A} (body : M A) (handler : exn -> A) (w : world) :
  try_except body handler w
  = mkRun (Returned (match result (body w) with
                     | Returned a => a
                     | Raised e => handler e
                     end))
      (after (body w)) (calls (body w)).
Proof. unfold try_except. now destruct (body w) as [[a|e] w1 cs]. Qed.

Lemma bind_lift_returned {A C} (o : Outcome A) (k : A -> M C) (w : world) (a : A) :
  o = Returned a -> bind (lift o) k w = k a w.
Proof. intros ->. unfold bind. cbn. apply prepend_nil. Qed.

Lemma bind_lift_raised {A C} (o : Outcome A) (k : A -> M C) (w : world) (e : exn) :
  o = Raised e -> bind (lift o) k w = mkRun (Raised e) w [].
Proof. intros ->. reflexivity. Qed.

Lemma run_eta {A} (r : Run A) : mkRun (result r) (after r) (calls r) = r.
Proof. now destruct r. Qed.

Lemma eq_str_true (v : value) (s : string) : eq_str v s = true <-> v = VStr s.
Proof.
  split.
  - destruct v; cbn; try discriminate. intros H. apply String.eqb_eq in H. now subst.
  - intros ->. cbn. apply String.eqb_refl.
Qed.

Lemma eq_str_of (v : value) (s t : string) :
  v = VStr t -> eq_str v s = String.eqb t s.
Proof. now intros ->. Qed.

Lemma question_type_is_true (t : string) (understanding : value) :
  question_type_is t understanding = true <->
  getitem understanding "question_type" = Returned (VStr t).
Proof.
  unfold question_type_is. split.
  - destruct (getitem understanding "question_type") as [q_type|e]; [|discriminate].
    intros H. apply eq_str_true in H. now subst.
  - intros ->. now apply eq_str_true.
Qed.

(** ** The two calls to the language model *)

Lemma understand_question_run (question : string) (prev_questions : list string)
    (w : world) :
  understand_question question prev_questions w
  = let messages := classifier_messages question prev_questions in
    let reply := llm1_invoke messages w in
    mkRun (match fst reply with
           | Returned response => Returned (understanding_of response)
           | Raised e => Raised e
           end)
          (snd reply) [Llm1Invoke messages (fst reply)].
Proof.
  unfold understand_question, bind, llm1, understanding_of.
  destruct (llm1_invoke _ w) as [[response|e] w1]; cbn; [|reflexivity].
  destruct (json_loads (content response)); cbn; reflexivity.
Qed.

Lemma generate_answer_run (question : string) (plans : list Document)
    (history : list HistoryItem) (w : world) :
  generate_answer question plans history w
  = let messages := advisor_messages question plans history in
    let reply := llm2_invoke messages w in
    mkRun (match fst reply with
           | Returned response => Returned (content response)
           | Raised e => Raised e
           end)
          (snd reply) [Llm2Invoke messages (fst reply)].
Proof.
  unfold generate_answer, bind, llm2.
  destruct (llm2_invoke _ w) as [[response|e] w1]; cbn; reflexivity.
Qed.

(** ** The plan retriever *)

Lemma get_plans_from_returns :
  forall (keys : list value) (plans : list Document) (w : world) (docs : list Document),
    result (get_plans_from plans keys w) = Returned docs ->
    exists hits : list (list Document),
      List.length hits = List.length keys
      /\ calls (get_plans_from plans keys w)
         = map (fun kh => lookup_of (fst kh) (snd kh)) (combine keys hits)
      /\ docs = (plans ++ flat_map first_hit hits)%list.
Proof.
  induction keys as [|key rest IH]; intros plans w docs H.
  - exists []. simpl in *. inversion H. rewrite app_nil_r. auto.
  - cbn [get_plans_from] in *. unfold bind, similarity_search in *.
    destruct (vector_db_similarity_search _ 1 [("premium", key)] w) as [res w1].
    cbn [result after calls] in *.
    destruct res as [results|e]; cbn [result] in H; [|discriminate].
    destruct results as [|first more].
    + destruct (IH plans w1 docs H) as (hits & Hlen & Hcalls & Hdocs).
      exists ([] :: hits). cbn. rewrite Hcalls, Hlen. auto.
    + destruct (IH (plans ++ [first])%list w1 docs H) as (hits & Hlen & Hcalls & Hdocs).
      exists ((first :: more) :: hits). cbn. rewrite Hcalls, Hlen.
      repeat split; auto. now rewrite Hdocs, <- app_assoc.
Qed.

Lemma first_hits_length (hits : list (list Document)) :
  List.length (flat_map first_hit hits) <= List.length hits.
Proof.
  induction hits as [|h hits IH]; cbn [flat_map List.length]; [lia|].
  rewrite length_app. destruct h; cbn [first_hit List.length]; lia.
Qed.

(** ** The routes of [chat] *)

Section Routes.

Variables (question : string) (history : list HistoryItem) (prev_questions : list string).
Variable w : world.

Let classified := understand_question question prev_questions w.

Lemma chat_classifier_raised (e : exn) :
  result classified = Raised e ->
  chat question history prev_questions w
  = mkRun (Raised e) (after classified) (calls classified).
Proof. intros H. unfold chat. now rewrite (bind_raised _ _ _ _ H). Qed.

Variable understanding : value.
Hypothesis Hclassified : result classified = Returned understanding.

Lemma chat_no_question_type (e : exn) :
  getitem understanding "question_type" = Raised e ->
  chat question history prev_questions w
  = mkRun (Raised e) (after classified) (calls classified).
Proof.
  intros H. unfold chat. rewrite (bind_returned _ _ _ _ Hclassified).
  rewrite (bind_lift_raised _ _ _ _ H). unfold prepend. cbn.
  rewrite app_nil_r. reflexivity.
Qed.

Variable q_type : value.
Hypothesis Htype : getitem understanding "question_type" = Returned q_type.

Lemma chat_no_premium_amounts (e : exn) :
  getitem understanding "premium_amounts" = Raised e ->
  chat question history prev_questions w
  = mkRun (Raised e) (after classified) (calls classified).
Proof.
  intros H. unfold chat. rewrite (bind_returned _ _ _ _ Hclassified).
  rewrite (bind_lift_returned _ _ _ _ Htype), (bind_lift_raised _ _ _ _ H).
  unfold prepend. cbn. rewrite app_nil_r. reflexivity.
Qed.

Variable premiums : value.
Hypothesis Hpremiums : getitem understanding "premium_amounts" = Returned premiums.

Ltac enter_route :=
  unfold chat; rewrite (bind_returned _ _ _ _ Hclassified);
  rewrite (bind_lift_returned _ _ _ _ Htype), (bind_lift_returned _ _ _ _ Hpremiums).

Ltac route_of Hq :=
  enter_route; rewrite Hq; cbn [eq_str];
  repeat match goal with
         | |- context [String.eqb ?a ?b] =>
             let v := eval vm_compute in (String.eqb a b) in
             change (String.eqb a b) with v
         end;
  cbv iota.

Lemma chat_invalid (reason : value) :
  q_type = VStr "INVALID" ->
  getitem understanding "reason" = Returned reason ->
  chat question history prev_questions w
  = mkRun (Returned (Some (INVALID_PREFIX ++ py_str reason, history, prev_questions)))
      (after classified) (calls classified).
Proof.
  intros Hq Hreason. route_of Hq.
  rewrite (bind_lift_returned _ _ _ _ Hreason).
  unfold prepend. cbn. rewrite app_nil_r. reflexivity.
Qed.

Lemma chat_invalid_no_reason (e : exn) :
  q_type = VStr "INVALID" ->
  getitem understanding "reason" = Raised e ->
  chat question history prev_questions w
  = mkRun (Raised e) (after classified) (calls classified).
Proof.
  intros Hq Hreason. route_of Hq.
  rewrite (bind_lift_raised _ _ _ _ Hreason).
  unfold prepend. cbn. rewrite app_nil_r. reflexivity.
Qed.

Let fetched := get_plans premiums (after classified).

Lemma chat_new_fetch_raised (e : exn) :
  q_type = VStr "NEW" ->
  result fetched = Raised e ->
  chat question history prev_questions w
  = mkRun (Raised e) (after fetched) (calls classified ++ calls fetched)%list.
Proof.
  intros Hq Hfetched. route_of Hq.
  rewrite (bind_raised _ _ _ _ Hfetched). reflexivity.
Qed.

Lemma chat_new_no_match :
  q_type = VStr "NEW" ->
  result fetched = Returned [] ->
  chat question history prev_questions w
  = mkRun (Returned (Some ("No plans found for premiums: " ++ py_str premiums,
                           history, prev_questions)))
      (after fetched) (calls classified ++ calls fetched)%list.
Proof.
  intros Hq Hfetched. route_of Hq.
  rewrite (bind_returned _ _ _ _ Hfetched).
  unfold prepend. cbn. rewrite app_nil_r. reflexivity.
Qed.

Lemma chat_new_found (plans : list Document) :
  q_type = VStr "NEW" ->
  result fetched = Returned plans ->
  plans <> [] ->
  chat question history prev_questions w
  = let messages := advisor_messages question plans history in
    let reply := llm2_invoke messages (after fetched) in
    mkRun (match fst reply with
           | Returned response =>
               Returned (Some (content response,
                               history ++ [mkItem question (content response) (Some plans)],
                               prev_questions ++ [question]))%list
           | Raised e => Raised e
           end)
      (snd reply)
      (calls classified ++ calls fetched ++ [Llm2Invoke messages (fst reply)])%list.
Proof.
  intros Hq Hfetched Hplans. route_of Hq.
  rewrite (bind_returned _ _ _ _ Hfetched).
  destruct plans as [|d ds]; [contradiction|].
  unfold bind. rewrite generate_answer_run. unfold prepend. cbn.
  destruct (llm2_invoke _ _) as [[response|e] w2]; cbn; rewrite ?app_nil_r; reflexivity.
Qed.

Lemma chat_follow_up_empty :
  q_type = VStr "FOLLOW_UP" ->
  history = [] ->
  chat question history prev_questions w
  = mkRun (Returned (Some (EMPTY_HISTORY_MESSAGE, history, prev_questions)))
      (after classified) (calls classified).
Proof.
  intros Hq Hh. route_of Hq. subst history.
  unfold prepend. cbn. rewrite app_nil_r. reflexivity.
Qed.

Lemma chat_follow_up (first : HistoryItem) (earlier : list HistoryItem) :
  q_type = VStr "FOLLOW_UP" ->
  history = first :: earlier ->
  chat question history prev_questions w
  = let last_plans := get_plans_or_empty (last history first) in
    let messages := advisor_messages question last_plans history in
    let reply := llm2_invoke messages (after classified) in
    mkRun (match fst reply with
           | Returned response =>
               Returned (Some (content response,
                               history ++ [mkItem question (content response)
                                             (Some last_plans)],
                               prev_questions ++ [question]))%list
           | Raised e => Raised e
           end)
      (snd reply)
      (calls classified ++ [Llm2Invoke messages (fst reply)])%list.
Proof.
  intros Hq Hh. route_of Hq. subst history.
  unfold bind. rewrite generate_answer_run. unfold prepend.
  cbn [result after calls fst snd].
  destruct (llm2_invoke _ _) as [[response|e] w2]; cbn; rewrite ?app_nil_r; reflexivity.
Qed.

Lemma chat_unrecognised :
  eq_str q_type "INVALID" = false ->
  eq_str q_type "NEW" = false ->
  eq_str q_type "FOLLOW_UP" = false ->
  chat question history prev_questions w
  = mkRun (Returned None) (after classified) (calls classified).
Proof.
  intros H1 H2 H3. enter_route. rewrite H1, H2, H3.
  unfold prepend. cbn. rewrite app_nil_r. reflexivity.
Qed.

End Routes.

(** ** What the trace says about the classifier *)

Lemma calls_bind {A C} (m : M A) (k : A -> M C) (w : world) :
  calls (bind m k w)
  = (calls (m w) ++ match result (m w) with
                    | Returned a => calls (k a (after (m w)))
                    | Raised _ => []
                    end)%list.
Proof.
  unfold bind, prepend. destruct (result (m w)); cbn; rewrite ?app_nil_r; reflexivity.
Qed.

Lemma chat_calls (question : string) (history : list HistoryItem)
    (prev_questions : list string) (w : world) :
  exists rest,
    calls (chat question history prev_questions w)
    = (calls (understand_question question prev_questions w) ++ rest)%list.
Proof. unfold chat. rewrite calls_bind. eauto. Qed.

Lemma classifier_replied_app (p : value -> bool) (t1 t2 : list Call) :
  classifier_replied p (t1 ++ t2) = classifier_replied p t1 && classifier_replied p t2.
Proof. apply forallb_app. Qed.

(** If every classifier reply in the trace of [chat] satisfies [p], the
    classifier returned, and what it returned satisfies [p]. *)
Lemma chat_classified (p : value -> bool) (question : string)
    (history : list HistoryItem) (prev_questions : list string) (w : world) :
  classifier_replied p (calls (chat question history prev_questions w)) = true ->
  exists understanding,
    result (understand_question question prev_questions w) = Returned understanding
    /\ p understanding = true.
Proof.
  destruct (chat_calls question history prev_questions w) as (rest & ->).
  rewrite classifier_replied_app, understand_question_run. cbn.
  destruct (fst (llm1_invoke _ w)) as [response|e]; [|discriminate].
  intros H. exists (understanding_of response). split; [reflexivity|].
  now destruct (p (understanding_of response)).
Qed.

Lemma understand_question_calls_no_store (question : string) (prev_questions : list string)
    (w : world) :
  no_store_call (calls (understand_question question prev_questions w)) = true.
Proof. now rewrite understand_question_run. Qed.

(** ** One utterance *)

(** What a returning [chat] returns, by the outcome of the utterance. *)
Lemma chat_step (question : string) (history : list HistoryItem)
    (prev_questions : list string) (w : world) (r : option Reply) :
  result (chat question history prev_questions w) = Returned r ->
  match step_outcome question history prev_questions w with
  | Some Rejected | Some NoMatch | Some EmptyHistory =>
      exists answer, r = Some (answer, history, prev_questions)
  | Some CommittedNew | Some CommittedFollowUp =>
      exists answer records,
        r = Some (answer, history ++ [mkItem question answer (Some records)],
                  prev_questions ++ [question])%list
  | None => r = None
  end.
Proof.
  intros H. unfold step_outcome, question_type_is.
  destruct (result (understand_question question prev_questions w))
    as [understanding|e] eqn:Hc.
  2:{ rewrite (chat_classifier_raised _ _ _ _ _ Hc) in H. discriminate. }
  destruct (getitem understanding "question_type") as [q_type|e] eqn:Ht.
  2:{ rewrite (chat_no_question_type _ _ _ _ _ Hc _ Ht) in H. discriminate. }
  destruct (getitem understanding "premium_amounts") as [premiums|e] eqn:Hp.
  2:{ rewrite (chat_no_premium_amounts _ _ _ _ _ Hc _ Ht _ Hp) in H. discriminate. }
  destruct (eq_str q_type "INVALID") eqn:E1.
  { apply eq_str_true in E1.
    destruct (getitem understanding "reason") as [reason|e] eqn:Hr.
    - rewrite (chat_invalid _ _ _ _ _ Hc _ Ht _ Hp _ E1 Hr) in H.
      inversion H. eauto.
    - rewrite (chat_invalid_no_reason _ _ _ _ _ Hc _ Ht _ Hp _ E1 Hr) in H.
      discriminate. }
  destruct (eq_str q_type "NEW") eqn:E2.
  { apply eq_str_true in E2.
    destruct (result (get_plans premiums (after (understand_question question prev_questions w))))
      as [[|d ds]|e] eqn:Hf.
    - rewrite (chat_new_no_match _ _ _ _ _ Hc _ Ht _ Hp E2 Hf) in H. inversion H. eauto.
    - rewrite (chat_new_found _ _ _ _ _ Hc _ Ht _ Hp _ E2 Hf) in H by discriminate.
      cbn [result] in H. destruct (fst (llm2_invoke _ _)); inversion H.
      do 2 eexists. reflexivity.
    - rewrite (chat_new_fetch_raised _ _ _ _ _ Hc _ Ht _ Hp _ E2 Hf) in H. discriminate. }
  destruct (eq_str q_type "FOLLOW_UP") eqn:E3.
  { apply eq_str_true in E3. destruct history as [|first earlier].
    - rewrite (chat_follow_up_empty _ _ _ _ _ Hc _ Ht _ Hp E3 eq_refl) in H.
      inversion H. eauto.
    - rewrite (chat_follow_up _ _ _ _ _ Hc _ Ht _ Hp _ _ E3 eq_refl) in H.
      cbn [result] in H. destruct (fst (llm2_invoke _ _)); inversion H.
      do 2 eexists. reflexivity. }
  rewrite (chat_unrecognised _ _ _ _ _ Hc _ Ht _ Hp E1 E2 E3) in H. now inversion H.
Qed.

(** Either nothing is appended, or one item and the question are. *)
Lemma chat_appends_both_or_neither (question : string) (history : list HistoryItem)
    (prev_questions : list string) (w : world) (answer : string)
    (history' : list HistoryItem) (prev_questions' : list string) :
  result (chat question history prev_questions w)
  = Returned (Some (answer, history', prev_questions')) ->
  if committed (step_outcome question history prev_questions w)
  then exists item,
         history' = (history ++ [item])%list
         /\ prev_questions' = (prev_questions ++ [question])%list
  else history' = history /\ prev_questions' = prev_questions.
Proof.
  intros H. apply chat_step in H.
  destruct (step_outcome question history prev_questions w) as [[]|]; cbn [committed];
    try (destruct H as (a & H); inversion H; now auto);
    try (destruct H as (a & records & H); inversion H; now eauto).
  discriminate.
Qed.

(** ** Sequences of utterances *)

Lemma process_utterances_cons (user_input : string) (rest : list string)
    (history : list HistoryItem) (prev_questions : list string) (w : world) :
  process_utterances (user_input :: rest) history prev_questions w
  = let step := chat user_input history prev_questions w in
    match result step with
    | Returned (Some (answer, history', prev_questions')) =>
        let tail := process_utterances rest history' prev_questions' (after step) in
        mkRun (match result tail with
               | Returned (answers, h, q) => Returned (answer :: answers, h, q)
               | Raised e => Raised e
               end)
          (after tail) (calls step ++ calls tail)%list
    | Returned None => mkRun (Raised (TypeError Unpacking VNone)) (after step) (calls step)
    | Raised e => mkRun (Raised e) (after step) (calls step)
    end.
Proof.
  cbn [process_utterances]. unfold bind at 1. cbv zeta.
  destruct (result (chat user_input history prev_questions w))
    as [[[[answer h1] q1]|]|e]; [| |reflexivity].
  - unfold unpack, bind, ret, prepend. cbn [result after calls].
    destruct (result (process_utterances rest h1 q1 _)) as [[[answers h2] q2]|e];
      cbn [result after calls]; rewrite ?app_nil_r; reflexivity.
  - unfold unpack, bind, raise, prepend. cbn. rewrite app_nil_r. reflexivity.
Qed.

Lemma process_utterances_lengths :
  forall (inputs : list string) (history : list HistoryItem) (prev_questions : list string)
         (w : world) (answers : list string) (history' : list HistoryItem)
         (prev_questions' : list string),
    result (process_utterances inputs history prev_questions w)
    = Returned (answers, history', prev_questions') ->
    let n := List.length (filter committed (outcomes inputs history prev_questions w)) in
    List.length (outcomes inputs history prev_questions w) = List.length inputs
    /\ Forall (fun o => o <> None) (outcomes inputs history prev_questions w)
    /\ List.length answers = List.length inputs
    /\ List.length history' = List.length history + n
    /\ List.length prev_questions' = List.length prev_questions + n.
Proof.
  induction inputs as [|user_input rest IH]; intros history prev_questions w answers h' q' H.
  - cbn in H. inversion H. cbn. repeat split; auto; lia.
  - rewrite process_utterances_cons in H. cbv zeta in H. cbn [outcomes]. cbv zeta.
    destruct (result (chat user_input history prev_questions w))
      as [[[[answer h1] q1]|]|e] eqn:Hstep; cbn [result] in H; try discriminate.
    destruct (result (process_utterances rest h1 q1 _)) as [[[answers1 h2] q2]|e] eqn:Htail;
      [|discriminate].
    inversion H; subst. clear H.
    destruct (IH _ _ _ _ _ _ Htail) as (Hos & Hsome & Hans & Hh & Hq).
    pose proof (chat_appends_both_or_neither _ _ _ _ _ _ _ Hstep) as Hone.
    assert (Hknown : step_outcome user_input history prev_questions w <> None).
    { intros Hnone. apply chat_step in Hstep. rewrite Hnone in Hstep. discriminate. }
    cbn [filter List.length].
    destruct (committed (step_outcome user_input history prev_questions w)).
    + destruct Hone as (item & -> & ->). rewrite !length_app in *.
      cbn [List.length] in *. repeat split; auto; lia.
    + destruct Hone as (-> & ->). cbn [List.length]. repeat split; auto; lia.
Qed.

Lemma process_utterances_calls (user_input : string) (rest : list string)
    (history : list HistoryItem) (prev_questions : list string) (w : world) :
  exists more,
    calls (process_utterances (user_input :: rest) history prev_questions w)
    = (calls (chat user_input history prev_questions w) ++ more)%list.
Proof.
  rewrite process_utterances_cons. cbv zeta.
  destruct (result (chat user_input history prev_questions w)) as [[[[a h1] q1]|]|e];
    cbn [calls]; eauto; exists []; now rewrite app_nil_r.
Qed.

(** ** Follow-up turns *)

(** One FOLLOW_UP utterance on a non-empty history. *)
Lemma follow_up_step (question : string) (first : HistoryItem)
    (earlier : list HistoryItem) (prev_questions : list string) (w : world)
    (r : option Reply) :
  let history := first :: earlier in
  let step := chat question history prev_questions w in
  result step = Returned r ->
  classifier_replied (question_type_is "FOLLOW_UP") (calls step) = true ->
  no_store_call (calls step) = true
  /\ exists answer,
       r = Some (answer,
                 history ++ [mkItem question answer
                               (Some (get_plans_or_empty (last history first)))],
                 prev_questions ++ [question])%list.
Proof.
  cbv zeta. intros Hr Hc.
  destruct (chat_classified _ _ _ _ _ Hc) as (understanding & Hu & Ht).
  apply question_type_is_true in Ht.
  destruct (getitem understanding "premium_amounts") as [premiums|e] eqn:Hp.
  2:{ rewrite (chat_no_premium_amounts _ _ _ _ _ Hu _ Ht _ Hp) in Hr. discriminate. }
  rewrite (chat_follow_up _ _ _ _ _ Hu _ Ht _ Hp first earlier eq_refl eq_refl) in Hr |- *.
  cbv zeta in Hr |- *. cbn [result calls] in Hr |- *. split.
  - unfold no_store_call. rewrite forallb_app.
    fold (no_store_call (calls (understand_question question prev_questions w))).
    now rewrite understand_question_calls_no_store.
  - destruct (fst (llm2_invoke _ _)) as [response|e]; inversion Hr.
    exists (content response). reflexivity.
Qed.

(** The same step, with its trace: one call to the classifier, one to the
    generator with the reused records, none to the store. *)
Lemma follow_up_step_calls (question : string) (first : HistoryItem)
    (earlier : list HistoryItem) (prev_questions : list string) (w : world)
    (r : option Reply) :
  let history := first :: earlier in
  let step := chat question history prev_questions w in
  result step = Returned r ->
  classifier_replied (question_type_is "FOLLOW_UP") (calls step) = true ->
  exists reply response,
    calls step
    = [ Llm1Invoke (classifier_messages question prev_questions) reply;
        Llm2Invoke (advisor_messages question
                      (get_plans_or_empty (last history first)) history)
          (Returned response) ]
    /\ r = Some (content response,
                 history ++ [mkItem question (content response)
                               (Some (get_plans_or_empty (last history first)))],
                 prev_questions ++ [question])%list.
Proof.
  cbv zeta. intros Hr Hc.
  destruct (chat_classified _ _ _ _ _ Hc) as (understanding & Hu & Ht).
  apply question_type_is_true in Ht.
  destruct (getitem understanding "premium_amounts") as [premiums|e] eqn:Hp.
  2:{ rewrite (chat_no_premium_amounts _ _ _ _ _ Hu _ Ht _ Hp) in Hr. discriminate. }
  rewrite (chat_follow_up _ _ _ _ _ Hu _ Ht _ Hp first earlier eq_refl eq_refl) in Hr |- *.
  cbv zeta in Hr |- *. cbn [result calls] in Hr |- *.
  destruct (fst (llm2_invoke _ _)) as [response|e]; [|discriminate].
  injection Hr as <-.
  rewrite understand_question_run. cbv zeta. cbn [calls app].
  eexists. exists response. split; reflexivity.
Qed.

(** [X18] What a FOLLOW_UP turn caches. Take a history that is not empty and
    a run of any number of utterances through [chat], each classified
    FOLLOW_UP. The run makes no call to the store; it appends one item per
    utterance, in order; and the ["plans"] of each appended item are
    [history[-1].get("plans", [])] of the history the utterance was processed
    on, hence of the last item the run started from. When that item has no
    ["plans"], as the items a web session stores, this is the empty list, not
    the records of the comparison the item stands for. *)
Theorem follow_up_record_identity :
  forall (inputs : list string) (first : HistoryItem) (earlier : list HistoryItem)
         (prev_questions : list string) (w : world) (answers : list string)
         (history' : list HistoryItem) (prev_questions' : list string),
    let history := first :: earlier in
    let run := process_utterances inputs history prev_questions w in
    result run = Returned (answers, history', prev_questions') ->
    classifier_replied (question_type_is "FOLLOW_UP") (calls run) = true ->
    no_store_call (calls run) = true
    /\ exists new : list HistoryItem,
         history' = (history ++ new)%list
         /\ map user new = inputs
         /\ (forall i item,
               nth_error new i = Some item ->
               plans item
               = Some (get_plans_or_empty (last (history ++ firstn i new) first)))
         /\ Forall (fun item =>
                      plans item = Some (get_plans_or_empty (last history first))) new.
Proof.
  cbv zeta.
  induction inputs as [|question rest IH];
    intros first earlier prev_questions w answers history' prev_questions' Hrun Hreplies.
  - cbn in Hrun. inversion Hrun. split; [reflexivity|].
    exists []. rewrite app_nil_r. repeat split; auto.
    intros [|i] item Hi; discriminate.
  - rewrite process_utterances_cons in Hrun, Hreplies |- *. cbv zeta in *.
    destruct (result (chat question (first :: earlier) prev_questions w))
      as [[[[answer h1] q1]|]|e] eqn:Hstep; cbn [result calls] in *; try discriminate.
    rewrite classifier_replied_app in Hreplies.
    apply andb_true_iff in Hreplies as [Hhead Htail].
    destruct (follow_up_step _ _ _ _ _ _ Hstep Hhead) as (Hstore & a & Heq).
    injection Heq as Ha Hh1 Hq1. subst a h1 q1.
    set (item := mkItem question answer
                   (Some (get_plans_or_empty (last (first :: earlier) first)))) in *.
    destruct (result (process_utterances rest _ _ _)) as [[[answers1 h2] q2]|e] eqn:Hrest;
      [|discriminate].
    injection Hrun as Hanswers Hh2 Hq2. subst h2 q2.
    destruct (IH first (earlier ++ [item])%list _ _ _ _ _ Hrest Htail)
      as (Hstore' & new & Hh & Hmap & Hprev & Hall).
    assert (Hlast : last (first :: earlier ++ [item]) first = item)
      by apply (last_last (first :: earlier) item first).
    split.
    { unfold no_store_call in *. rewrite forallb_app, Hstore. exact Hstore'. }
    exists (item :: new). repeat split.
    + rewrite Hh. apply (eq_sym (app_assoc (first :: earlier) [item] new)).
    + cbn [map]. now rewrite Hmap.
    + intros [|i] it Hi; cbn [nth_error] in Hi.
      * injection Hi as <-. cbn [firstn]. now rewrite app_nil_r.
      * rewrite (Hprev _ _ Hi). cbn [firstn].
        apply f_equal, f_equal, (f_equal (fun log => last log first)).
        apply (eq_sym (app_assoc (first :: earlier) [item] (firstn i new))).
    + constructor; [reflexivity|].
      rewrite Hlast in Hall. exact Hall.
Qed.

(** * The dialogue controller *)

(** [C2] Append-on-success-only. A call of [chat] that returns its tuple
    returns the history and the question log it was given when the outcome is
    a rejection, an empty match or an empty history, and returns them with
    exactly one item and the question appended when the outcome is a committed
    NEW or FOLLOW_UP. Over any sequence of utterances the loop gets through,
    every utterance has one of these five outcomes, and both logs have grown
    by the number of committed outcomes. *)
Theorem append_on_success_only :
  (forall (question : string) (history : list HistoryItem) (prev_questions : list string)
          (w : world) (answer : string) (history' : list HistoryItem)
          (prev_questions' : list string),
      result (chat question history prev_questions w)
      = Returned (Some (answer, history', prev_questions')) ->
      if committed (step_outcome question history prev_questions w)
      then exists item,
             history' = (history ++ [item])%list
             /\ prev_questions' = (prev_questions ++ [question])%list
      else history' = history /\ prev_questions' = prev_questions)
  /\ (forall (inputs : list string) (history : list HistoryItem)
             (prev_questions : list string) (w : world) (answers : list string)
             (history' : list HistoryItem) (prev_questions' : list string),
        result (process_utterances inputs history prev_questions w)
        = Returned (answers, history', prev_questions') ->
        let n := List.length (filter committed (outcomes inputs history prev_questions w)) in
        List.length (outcomes inputs history prev_questions w) = List.length inputs
        /\ Forall (fun o => o <> None) (outcomes inputs history prev_questions w)
        /\ List.length history' = List.length history + n
        /\ List.length prev_questions' = List.length prev_questions + n).
Proof.
  split.
  - exact chat_appends_both_or_neither.
  - intros inputs history prev_questions w answers history' prev_questions' H.
    destruct (process_utterances_lengths _ _ _ _ _ _ _ H) as (H1 & H2 & _ & H3 & H4).
    cbv zeta. auto.
Qed.

(** [C6] Retrieval order and silent drop. When [get_plans] returns for a list
    of keys, it has made exactly one store lookup per key, in the order of the
    keys, each with [k = 1] and the exact-match filter [{"premium": key}]; its
    result is, key by key in that order, the first hit of the lookup when there
    is one and nothing when there is none; so it is never longer than the list
    of keys. *)
Theorem get_plans_order_and_silent_drop :
  forall (keys : list value) (w : world) (docs : list Document),
    result (get_plans (VList keys) w) = Returned docs ->
    exists hits : list (list Document),
      List.length hits = List.length keys
      /\ calls (get_plans (VList keys) w)
         = map (fun kh => lookup_of (fst kh) (snd kh)) (combine keys hits)
      /\ docs = flat_map first_hit hits
      /\ List.length docs <= List.length keys.
Proof.
  intros keys w docs H.
  unfold get_plans in *.
  rewrite (bind_lift_returned (iterate (VList keys)) _ _ keys eq_refl) in H |- *.
  destruct (get_plans_from_returns keys [] w docs H) as (hits & Hlen & Hcalls & Hdocs).
  exists hits. cbn [app] in Hdocs. subst docs. repeat split; auto.
  rewrite <- Hlen. apply first_hits_length.
Qed.

(** [C7] NoMatch and EmptyHistory are messages. When the classifier returns a
    NEW intent and the fetch returns no record, [chat] returns the message
    naming the premiums, with the history and the question log it was given;
    when the classifier returns a FOLLOW_UP intent and the history is empty,
    [chat] returns the instruction to ask a comparison question first, with
    the empty history and the question log it was given. Neither raises. *)
Theorem no_match_and_empty_history_are_messages :
  forall (question : string) (history : list HistoryItem) (prev_questions : list string)
         (w : world) (understanding premiums : value),
    result (understand_question question prev_questions w) = Returned understanding ->
    getitem understanding "premium_amounts" = Returned premiums ->
    (getitem understanding "question_type" = Returned (VStr "NEW") ->
     result (get_plans premiums (after (understand_question question prev_questions w)))
     = Returned [] ->
     result (chat question history prev_questions w)
     = Returned (Some ("No plans found for premiums: " ++ py_str premiums,
                       history, prev_questions)))
    /\ (getitem understanding "question_type" = Returned (VStr "FOLLOW_UP") ->
        result (chat question [] prev_questions w)
        = Returned (Some (EMPTY_HISTORY_MESSAGE, [], prev_questions))).
Proof.
  intros question history prev_questions w understanding premiums Hu Hp. split.
  - intros Ht Hf. now rewrite (chat_new_no_match _ _ _ _ _ Hu _ Ht _ Hp eq_refl Hf).
  - intros Ht. now rewrite (chat_follow_up_empty _ _ _ _ _ Hu _ Ht _ Hp eq_refl eq_refl).
Qed.

(** [C8] Idempotent rejection. Submit the same utterance [n] times. If every
    reply of the classifier in the run is an INVALID intent with the same
    reason (and carries the key ["premium_amounts"]), the run returns [n]
    times the same message, the fixed text followed by that reason, and
    returns the history and the question log it started from. *)
Theorem rejection_is_idempotent :
  forall (question reason : string) (n : nat) (history : list HistoryItem)
         (prev_questions : list string) (w : world),
    let run := process_utterances (repeat question n) history prev_questions w in
    classifier_replied
      (fun understanding =>
         question_type_is "INVALID" understanding
         && has_key "premium_amounts" understanding
         && reason_is reason understanding)
      (calls run) = true ->
    result run = Returned (repeat (INVALID_PREFIX ++ reason) n, history, prev_questions).
Proof.
  cbv zeta. intros question reason n history prev_questions.
  induction n as [|n IH]; intros w Hreplies; [reflexivity|].
  cbn [repeat] in *.
  destruct (process_utterances_calls question (repeat question n) history prev_questions w)
    as (more & Hcalls).
  pose proof Hreplies as Hhead. rewrite Hcalls, classifier_replied_app in Hhead.
  apply andb_true_iff in Hhead as [Hhead _].
  destruct (chat_classified _ _ _ _ _ Hhead) as (understanding & Hu & Hp).
  apply andb_true_iff in Hp as [Hp Hreason]. apply andb_true_iff in Hp as [Ht Hkey].
  apply question_type_is_true in Ht.
  unfold has_key in Hkey. unfold reason_is in Hreason.
  destruct (getitem understanding "premium_amounts") as [premiums|] eqn:Hpremiums;
    [|discriminate].
  destruct (getitem understanding "reason") as [r|] eqn:Hr; [|discriminate].
  apply eq_str_true in Hreason. subst r.
  pose proof (chat_invalid _ history _ _ _ Hu _ Ht _ Hpremiums _ eq_refl Hr) as Hstep.
  rewrite process_utterances_cons in Hreplies |- *. cbv zeta in *.
  rewrite Hstep in Hreplies |- *. cbn [result after calls py_str] in *.
  rewrite classifier_replied_app in Hreplies.
  apply andb_true_iff in Hreplies as [_ Htail].
  now rewrite (IH _ Htail).
Qed.

(** [C10] Unrecognised intents and missing keys. When the classifier returns a
    dict that has both keys and whose ["question_type"] is none of ["NEW"],
    ["FOLLOW_UP"] and ["INVALID"], [chat] falls through its three routes and
    returns [None]. When the reply of [llm1] decodes to a dict without the key
    ["question_type"], or with it but without ["premium_amounts"], [chat]
    raises [KeyError] for that key: the fallback of [understand_question] is
    not taken, since the reply decoded. *)
Theorem unrecognised_intent_and_missing_keys :
  forall (question : string) (history : list HistoryItem) (prev_questions : list string)
         (w : world),
    (forall understanding q_type premiums,
        result (understand_question question prev_questions w) = Returned understanding ->
        getitem understanding "question_type" = Returned q_type ->
        getitem understanding "premium_amounts" = Returned premiums ->
        eq_str q_type "NEW" = false ->
        eq_str q_type "FOLLOW_UP" = false ->
        eq_str q_type "INVALID" = false ->
        result (chat question history prev_questions w) = Returned None)
    /\ (forall response w1 entries,
          llm1_invoke (classifier_messages question prev_questions) w
          = (Returned response, w1) ->
          json_loads (content response) = Some (VDict entries) ->
          (dict_get entries "question_type" = None ->
           result (chat question history prev_questions w)
           = Raised (KeyError "question_type"))
          /\ (dict_get entries "question_type" <> None ->
              dict_get entries "premium_amounts" = None ->
              result (chat question history prev_questions w)
              = Raised (KeyError "premium_amounts"))).
Proof.
  intros question history prev_questions w. split.
  - intros understanding q_type premiums Hu Ht Hp H1 H2 H3.
    now rewrite (chat_unrecognised _ _ _ _ _ Hu _ Ht _ Hp H3 H1 H2).
  - intros response w1 entries Hreply Hdecoded.
    assert (Hu : result (understand_question question prev_questions w)
                 = Returned (VDict entries)).
    { rewrite understand_question_run. cbv zeta. rewrite Hreply. cbn.
      unfold understanding_of. now rewrite Hdecoded. }
    split.
    + intros Hmissing.
      assert (Ht : getitem (VDict entries) "question_type"
                   = Raised (KeyError "question_type"))
        by (cbn; now rewrite Hmissing).
      now rewrite (chat_no_question_type _ _ _ _ _ Hu _ Ht).
    + intros Hpresent Hmissing.
      destruct (dict_get entries "question_type") as [q_type|] eqn:Hq; [|contradiction].
      assert (Ht : getitem (VDict entries) "question_type" = Returned q_type)
        by (cbn; now rewrite Hq).
      assert (Hp : getitem (VDict entries) "premium_amounts"
                   = Raised (KeyError "premium_amounts"))
        by (cbn; now rewrite Hmissing).
      now rewrite (chat_no_premium_amounts _ _ _ _ _ Hu _ Ht _ Hp).
Qed.

(** [C3], as amended. When [llm1] returns a reply, [understand_question]
    returns and does not raise: it returns the decoded reply when
    [json.loads] decodes it, whatever was decoded, and otherwise the dict
    [{"question_type": "INVALID", "premium_amounts": None,
      "reason": "Error parsing AI response"}]; in that second case [chat]
    returns the rejection message with that reason and the state it was
    given. *)
Theorem parse_fallback_on_undecodable_reply :
  forall (question : string) (prev_questions : list string) (w : world)
         (response : Message) (w1 : world),
    llm1_invoke (classifier_messages question prev_questions) w = (Returned response, w1) ->
    result (understand_question question prev_questions w)
    = Returned (match json_loads (content response) with
                | Some decoded => decoded
                | None => VDict [ ("question_type", VStr "INVALID");
                                  ("premium_amounts", VNone);
                                  ("reason", VStr "Error parsing AI response") ]
                end)
    /\ (json_loads (content response) = None ->
        forall history,
          result (chat question history prev_questions w)
          = Returned (Some (INVALID_PREFIX ++ "Error parsing AI response",
                            history, prev_questions))).
Proof.
  intros question prev_questions w response w1 Hreply.
  assert (Hu : result (understand_question question prev_questions w)
               = Returned (understanding_of response)).
  { rewrite understand_question_run. cbv zeta. now rewrite Hreply. }
  split; [exact Hu|].
  intros Hnone history. unfold understanding_of in Hu. rewrite Hnone in Hu.
  now rewrite (chat_invalid _ history _ _ _ Hu (VStr "INVALID") eq_refl VNone eq_refl
                 (VStr "Error parsing AI response") eq_refl eq_refl).
Qed.

(** ** Exceptions of the services are never swallowed *)

Lemma propagates_ret {A} (a : A) : propagates (ret a).
Proof. intros w c e []. Qed.

Lemma propagates_raise {A} (e0 : exn) : propagates (@raise S A e0).
Proof. intros w c e []. Qed.

Lemma propagates_lift {A} (o : Outcome A) : propagates (lift o).
Proof. destruct o; [apply propagates_ret|apply propagates_raise]. Qed.

Lemma propagates_bind {A C} (m : M A) (k : A -> M C) :
  propagates m -> (forall a, propagates (k a)) -> propagates (bind m k).
Proof.
  intros Hm Hk w c e Hin Hraised. rewrite calls_bind in Hin.
  apply in_app_or in Hin.
  destruct (result (m w)) as [a|e0] eqn:Hres.
  - rewrite (bind_returned _ _ _ _ Hres). cbn [prepend result].
    destruct Hin as [Hin|Hin].
    + rewrite (Hm w c e Hin Hraised) in Hres. discriminate.
    + apply (Hk a (after (m w)) c e Hin Hraised).
  - rewrite (bind_raised _ _ _ _ Hres). cbn [result].
    destruct Hin as [Hin|[]]. pose proof (Hm w c e Hin Hraised) as Hsame. congruence.
Qed.

Lemma propagates_llm1 (messages : list Message) : propagates (llm1 messages).
Proof.
  intros w c e. unfold llm1. destruct (llm1_invoke messages w) as [res w1]. cbn.
  intros [<-|[]]. cbn. destruct res; congruence.
Qed.

Lemma propagates_llm2 (messages : list Message) : propagates (llm2 messages).
Proof.
  intros w c e. unfold llm2. destruct (llm2_invoke messages w) as [res w1]. cbn.
  intros [<-|[]]. cbn. destruct res; congruence.
Qed.

Lemma propagates_similarity_search (query : string) (k : nat)
    (filter : list (string * value)) :
  propagates (similarity_search query k filter).
Proof.
  intros w c e. unfold similarity_search.
  destruct (vector_db_similarity_search query k filter w) as [res w1]. cbn.
  intros [<-|[]]. cbn. destruct res; congruence.
Qed.

Create HintDb propagation.

#[local] Hint Resolve propagates_ret propagates_raise propagates_lift propagates_llm1
  propagates_llm2 propagates_similarity_search : propagation.

Ltac propagation :=
  repeat first
    [ solve [auto with propagation]
    | apply propagates_bind; [|intros ?]
    | match goal with
      | |- propagates (match ?x with _ => _ end) => destruct x
      | |- propagates (if ?b then _ else _) => destruct b
      end ].

Lemma propagates_understand_question (question : string) (prev_questions : list string) :
  propagates (understand_question question prev_questions).
Proof. unfold understand_question. propagation. Qed.

Lemma propagates_get_plans_from (premiums : list value) :
  forall plans, propagates (get_plans_from plans premiums).
Proof.
  induction premiums as [|premium rest IH]; intros plans; cbn [get_plans_from].
  - apply propagates_ret.
  - apply propagates_bind; [apply propagates_similarity_search|].
    intros [|first more]; apply IH.
Qed.

Lemma propagates_get_plans (premiums : value) : propagates (get_plans premiums).
Proof.
  unfold get_plans. apply propagates_bind; [apply propagates_lift|].
  intros items. apply propagates_get_plans_from.
Qed.

Lemma propagates_generate_answer (question : string) (plans : list Document)
    (history : list HistoryItem) :
  propagates (generate_answer question plans history).
Proof. unfold generate_answer. propagation. Qed.

#[local] Hint Resolve propagates_understand_question propagates_get_plans
  propagates_generate_answer : propagation.

Lemma propagates_chat (question : string) (history : list HistoryItem)
    (prev_questions : list string) :
  propagates (chat question history prev_questions).
Proof. unfold chat. propagation. Qed.

Lemma propagates_unpack (r : option Reply) : propagates (unpack r).
Proof. destruct r; [apply propagates_ret|apply propagates_raise]. Qed.

#[local] Hint Resolve propagates_chat propagates_unpack : propagation.

Lemma propagates_process_utterances (inputs : list string) :
  forall history prev_questions,
    propagates (process_utterances inputs history prev_questions).
Proof.
  induction inputs as [|user_input rest IH]; intros history prev_questions;
    cbn [process_utterances].
  - apply propagates_ret.
  - apply propagates_bind; [apply propagates_chat|]. intros r.
    apply propagates_bind; [apply propagates_unpack|]. intros [[answer h1] q1].
    apply propagates_bind; [apply IH|]. intros [[answers h2] q2]. apply propagates_ret.
Qed.

(** ** The serving boundary *)

(** What a request leaves in the session: either the session is the one it
    found and the status is not 200, or [chat] returned its tuple for the
    message and the session holds the returned logs, the items without their
    ["plans"]. *)
Lemma chat_endpoint_cases (request_json : Outcome value) (session : Session) (w : world)
    (resp : Response) (session' : Session) :
  result (chat_endpoint request_json session w) = Returned (resp, session') ->
  (session' = session /\ status resp <> 200)
  \/ (exists message answer h1 q1,
        result (chat message (get_or_empty (session_history session))
                  (get_or_empty (session_prev_questions session)) w)
        = Returned (Some (answer, h1, q1))
        /\ calls (chat_endpoint request_json session w)
           = calls (chat message (get_or_empty (session_history session))
                      (get_or_empty (session_prev_questions session)) w)
        /\ resp = mkResponse [("success", VBool true); ("response", VStr answer)] 200
        /\ session'
           = mkSession (Some (map (fun item => mkItem (user item) (bot item) None) h1))
               (Some q1)).
Proof.
  unfold chat_endpoint. rewrite try_except_run. cbn [result calls].
  assert (Hkept : forall r : Response,
             status r <> 200 -> Returned (r, session) = Returned (resp, session') ->
             session' = session /\ status resp <> 200).
  { intros r Hr H. inversion H. subst. auto. }
  destruct request_json as [data|e].
  2:{ rewrite (bind_lift_raised _ _ _ _ eq_refl). cbn [result]. left.
      eapply Hkept; [|eassumption]. cbn. discriminate. }
  rewrite (bind_lift_returned _ _ _ _ eq_refl).
  assert (Hmissing : forall k : bool -> M (Response * Session),
             exists missing,
               bind (if negb (truthy data) then ret true
                     else (present <- lift (contains "message" data) ;;
                           ret (negb present))) k w
               = match missing with
                 | Returned b => k b w
                 | Raised e => mkRun (Raised e) w []
                 end).
  { intros k. destruct (truthy data); cbn [negb].
    - rewrite bind_bind. destruct (contains "message" data) as [present|e].
      + rewrite (bind_lift_returned _ _ _ _ eq_refl), bind_ret.
        now exists (Returned (negb present)).
      + rewrite (bind_lift_raised _ _ _ _ eq_refl). now exists (Raised e).
    - rewrite bind_ret. now exists (Returned true). }
  match goal with
  | |- context [bind _ ?k w] => destruct (Hmissing k) as (missing & ->)
  end.
  clear Hmissing.
  destruct missing as [[|]|e]; cbn [result ret].
  1,3: intros H; left; eapply Hkept; [|exact H]; cbn; discriminate.
  destruct (getitem data "message") as [raw|e].
  2:{ rewrite (bind_lift_raised _ _ _ _ eq_refl). cbn [result]. left.
      eapply Hkept; [|eassumption]. cbn. discriminate. }
  rewrite (bind_lift_returned _ _ _ _ eq_refl).
  destruct (strip raw) as [message|e].
  2:{ rewrite (bind_lift_raised _ _ _ _ eq_refl). cbn [result]. left.
      eapply Hkept; [|eassumption]. cbn. discriminate. }
  rewrite (bind_lift_returned _ _ _ _ eq_refl).
  destruct (String.eqb message EmptyString).
  { cbn [result ret]. intros H; left; eapply Hkept; [|exact H]; cbn; discriminate. }
  set (h := get_or_empty (session_history session)).
  set (pq := get_or_empty (session_prev_questions session)).
  destruct (result (chat message h pq w)) as [[[[answer h1] q1]|]|e] eqn:Hstep.
  - rewrite (bind_returned _ _ _ _ Hstep). cbn [unpack]. rewrite bind_ret.
    cbn [prepend ret result calls after]. rewrite app_nil_r.
    intros H. inversion H. right. exists message, answer, h1, q1. auto.
  - rewrite (bind_returned _ _ _ _ Hstep). cbn [unpack].
    unfold bind at 1. cbn [raise prepend result]. intros H. left.
    eapply Hkept; [|exact H]. cbn. discriminate.
  - rewrite (bind_raised _ _ _ _ Hstep). cbn [result]. intros H. left.
    eapply Hkept; [|exact H]. cbn. discriminate.
Qed.

Lemma Forall_last {A} (P : A -> Prop) (l : list A) (d : A) :
  Forall P l -> P d -> P (last l d).
Proof.
  induction 1 as [|a l Ha Hl IH]; intros Hd; [exact Hd|].
  cbn [last]. destruct l; [exact Ha|]. apply IH, Hd.
Qed.

Lemma stored_items_have_no_plans (items : list HistoryItem) :
  Forall (fun item => plans item = None)
    (map (fun item => mkItem (user item) (bot item) None) items).
Proof. induction items; cbn [map]; constructor; auto. Qed.

(** * Failures, the length invariant and the serving boundary *)

(** [C4] Atomicity on collaborator failure. Whenever a call to the classifier
    model, to the store or to the generator model raises [e] while an
    utterance is processed, [chat] raises [e]: nothing in it catches the
    exception, and it returns no new state. The loop over utterances raises
    [e] as well. The web endpoint, the caller that does catch, answers 500
    with [str(e)] and leaves the session as it found it. *)
Theorem collaborator_failure_propagates :
  forall (c : Call) (e : exn),
    call_raised c = Some e ->
    (forall question history prev_questions w,
        In c (calls (chat question history prev_questions w)) ->
        result (chat question history prev_questions w) = Raised e)
    /\ (forall inputs history prev_questions w,
          In c (calls (process_utterances inputs history prev_questions w)) ->
          result (process_utterances inputs history prev_questions w) = Raised e)
    /\ (forall request_json session w,
          In c (calls (chat_endpoint request_json session w)) ->
          result (chat_endpoint request_json session w)
          = Returned (mkResponse [("success", VBool false);
                                  ("error", VStr (exn_str e))] 500,
                      session)).
Proof.
  intros c e Hraised. repeat split.
  - intros question history prev_questions w Hin.
    exact (propagates_chat question history prev_questions w c e Hin Hraised).
  - intros inputs history prev_questions w Hin.
    exact (propagates_process_utterances inputs history prev_questions w c e Hin Hraised).
  - intros request_json session w. unfold chat_endpoint. rewrite try_except_run.
    cbn [calls result].
    match goal with
    | |- In c (calls (?b w)) -> _ => set (body := b)
    end.
    assert (Hbody : propagates body) by (subst body; propagation).
    intros Hin. now rewrite (Hbody w c e Hin Hraised).
Qed.

(** [C5] Log-length equality. A call of [chat] that returns its tuple appends
    one element to both logs or appends to neither. So the loop over
    utterances, the web endpoint, the page that initialises the session and
    the reset all keep the two logs the same length. *)
Theorem log_lengths_stay_equal :
  (forall question history prev_questions w answer history' prev_questions',
      result (chat question history prev_questions w)
      = Returned (Some (answer, history', prev_questions')) ->
      (history' = history /\ prev_questions' = prev_questions)
      \/ (exists item,
            history' = (history ++ [item])%list
            /\ prev_questions' = (prev_questions ++ [question])%list))
  /\ (forall inputs history prev_questions w answers history' prev_questions',
        List.length history = List.length prev_questions ->
        result (process_utterances inputs history prev_questions w)
        = Returned (answers, history', prev_questions') ->
        List.length history' = List.length prev_questions')
  /\ (forall request_json session w resp session',
        session_lengths_agree session ->
        result (chat_endpoint request_json session w) = Returned (resp, session') ->
        session_lengths_agree session')
  /\ (forall session,
        session_lengths_agree session ->
        session_lengths_agree (home session)
        /\ session_lengths_agree (snd (reset_conversation session))).
Proof.
  assert (Hstep : forall question history prev_questions w answer history' prev_questions',
             result (chat question history prev_questions w)
             = Returned (Some (answer, history', prev_questions')) ->
             (history' = history /\ prev_questions' = prev_questions)
             \/ (exists item,
                   history' = (history ++ [item])%list
                   /\ prev_questions' = (prev_questions ++ [question])%list)).
  { intros question history prev_questions w answer history' prev_questions' H.
    apply chat_appends_both_or_neither in H.
    destruct (committed _); [right|left]; exact H. }
  split; [exact Hstep|]. split; [|split].
  - intros inputs history prev_questions w answers history' prev_questions' Hlen H.
    destruct (process_utterances_lengths _ _ _ _ _ _ _ H) as (_ & _ & _ & H1 & H2).
    cbv zeta in H1, H2. lia.
  - intros request_json session w resp session' Hlen H.
    destruct (chat_endpoint_cases _ _ _ _ _ H)
      as [[-> _]|(message & answer & h1 & q1 & Hchat & _ & _ & ->)]; [exact Hlen|].
    unfold session_lengths_agree in *. cbn [session_history session_prev_questions
                                             get_or_empty].
    rewrite length_map.
    destruct (Hstep _ _ _ _ _ _ _ Hchat) as [[-> ->]|(item & -> & ->)];
      rewrite ?length_app; cbn [List.length]; lia.
  - intros session Hlen. split; [|reflexivity].
    unfold session_lengths_agree, home in *.
    destruct session as [[h|] [pq|]]; exact Hlen.
Qed.

(** [C9] The web session keeps no records. After a /chat request answered
    with status 200, no item of the history stored in the session has the key
    ["plans"]; every request keeps it so once it holds. In such a session with
    a non-empty history, a request answered 200 whose message was classified
    FOLLOW_UP has called the classifier model once and the generator model
    once, with the messages [generate_answer] builds from an empty list of
    plans, and the store not at all. *)
Theorem web_session_history_omits_records :
  forall (request_json : Outcome value) (session : Session) (w : world)
         (resp : Response) (session' : Session),
    result (chat_endpoint request_json session w) = Returned (resp, session') ->
    (status resp = 200 -> stored_without_plans session')
    /\ (stored_without_plans session -> stored_without_plans session')
    /\ (stored_without_plans session ->
        get_or_empty (session_history session) <> [] ->
        status resp = 200 ->
        classifier_replied (question_type_is "FOLLOW_UP")
          (calls (chat_endpoint request_json session w)) = true ->
        exists message reply response,
          calls (chat_endpoint request_json session w)
          = [ Llm1Invoke (classifier_messages message
                            (get_or_empty (session_prev_questions session))) reply;
              Llm2Invoke (advisor_messages message []
                            (get_or_empty (session_history session)))
                (Returned response) ]
          /\ body resp = [("success", VBool true); ("response", VStr (content response))]).
Proof.
  intros request_json session w resp session' H.
  destruct (chat_endpoint_cases _ _ _ _ _ H)
    as [[-> Hstatus]|(message & answer & h1 & q1 & Hchat & Hcalls & -> & ->)].
  { repeat split; auto; intros; contradiction. }
  assert (Hstored : stored_without_plans
                      (mkSession
                         (Some (map (fun item => mkItem (user item) (bot item) None) h1))
                         (Some q1)))
    by apply stored_items_have_no_plans.
  repeat split; auto.
  intros Hinv Hnonempty _ Hreplies. rewrite Hcalls in Hreplies |- *.
  unfold stored_without_plans in Hinv.
  destruct (get_or_empty (session_history session)) as [|first earlier] eqn:Hh;
    [contradiction|].
  destruct (follow_up_step_calls _ _ _ _ _ _ Hchat Hreplies)
    as (reply & response & Htrace & Hr).
  assert (Hlast : get_plans_or_empty (last (first :: earlier) first) = []).
  { unfold get_plans_or_empty.
    rewrite (Forall_last (fun item => plans item = None) (first :: earlier) first Hinv);
      [reflexivity|]. now inversion Hinv. }
  rewrite Hlast in Htrace. injection Hr as -> _ _.
  exists message, reply, response. split; [exact Htrace|reflexivity].
Qed.

End Properties.

(** * Concrete conversations

    The statements above on conversations with the scripted services of
    [Demo]. *)

Import Demo.


(** Three keys on the scripted store, which holds the plans in another order
    and has no plan for 11111. *)
Lemma get_plans_order_and_silent_drop_witness :
  exists hits : list (list Document),
    List.length hits = 3
    /\ calls (get_plans (B := builtins) (S := services)
                (VList [VInt 22500; VInt 11111; VInt 18000]) (scripted [] []))
       = map (fun kh => lookup_of (B := builtins) (fst kh) (snd kh))
           (combine [VInt 22500; VInt 11111; VInt 18000] hits)
    /\ [PLAN_B; PLAN_A] = flat_map first_hit hits
    /\ 2 <= 3.
Proof.
  apply (get_plans_order_and_silent_drop (B := builtins) (S := services)
           [VInt 22500; VInt 11111; VInt 18000] (scripted [] []) [PLAN_B; PLAN_A]).
  vm_compute. reflexivity.
Defined.

(** [C1] FOLLOW_UP record identity fails on the web session. Two requests
    to [/chat] on a fresh session, with a store that has the three plans:
    ["compare 18000, 22500, 28000"], classified NEW, then
    ["which is cheaper?"], classified FOLLOW_UP. The turn [chat] builds for
    the first request refers to the three plans fetched, and the request is
    answered 200; the session keeps the turn without its ["plans"]
    (app.py:271-282). For the second request [chat] is run on that stored
    history, makes no call to the store, and builds a turn whose ["plans"] are
    the empty list, not the three plans of the preceding turn; the generator
    is sent the messages of an empty list of plans, whose last one says
    ["No plans available"], and the request is answered 200. The same two
    utterances through the loop of main.py give a follow-up turn that refers
    to the three plans. *)
Theorem follow_up_on_web_session_loses_records :
  let w := scripted [Returned NEW_REPLY; Returned FOLLOW_UP_REPLY]
             [Returned A_COMPARE; Returned A_CHEAPER] in
  let fresh := mkSession None None in
  let stored := mkSession (Some [STORED_COMPARE]) (Some [Q_COMPARE]) in
  let answered (answer : string) :=
    mkResponse [("success", VBool true); ("response", VStr answer)] 200 in
  let comparison :=
    chat_endpoint (B := builtins) (S := services)
      (Returned (VDict [("message", VStr Q_COMPARE)])) fresh w in
  let follow_up :=
    chat_endpoint (B := builtins) (S := services)
      (Returned (VDict [("message", VStr Q_CHEAPER)])) stored (after comparison) in
  let FOLLOW_UP_TURN := mkItem Q_CHEAPER A_CHEAPER (Some []) in
  (* the comparison *)
  result (chat (B := builtins) (S := services) Q_COMPARE [] [] w)
  = Returned (Some (A_COMPARE, [TURN_COMPARE], [Q_COMPARE]))
  /\ plans TURN_COMPARE = Some [PLAN_A; PLAN_B; PLAN_C]
  /\ result comparison = Returned (answered A_COMPARE, stored)
  /\ classifier_replied (B := builtins) (question_type_is "NEW") (calls comparison) = true
  (* the follow-up *)
  /\ result (chat (B := builtins) (S := services) Q_CHEAPER
               (get_or_empty (session_history stored))
               (get_or_empty (session_prev_questions stored)) (after comparison))
     = Returned (Some (A_CHEAPER, [STORED_COMPARE; FOLLOW_UP_TURN], [Q_COMPARE; Q_CHEAPER]))
  /\ plans FOLLOW_UP_TURN <> plans TURN_COMPARE
  /\ calls follow_up
     = [ Llm1Invoke (classifier_messages Q_CHEAPER [Q_COMPARE])
           (Returned (AIMessage FOLLOW_UP_REPLY));
         Llm2Invoke (advisor_messages Q_CHEAPER [] [STORED_COMPARE])
           (Returned (AIMessage A_CHEAPER)) ]
  /\ classifier_replied (B := builtins) (question_type_is "FOLLOW_UP") (calls follow_up)
     = true
  /\ no_store_call (calls follow_up) = true
  /\ is_substring "No plans available"
       (content (last (advisor_messages Q_CHEAPER [] [STORED_COMPARE]) (AIMessage "")))
     = true
  /\ result follow_up
     = Returned (answered A_CHEAPER,
                 mkSession (Some [STORED_COMPARE; mkItem Q_CHEAPER A_CHEAPER None])
                   (Some [Q_COMPARE; Q_CHEAPER]))
  (* the same utterances through the loop of main.py *)
  /\ result (process_utterances (B := builtins) (S := services) [Q_COMPARE; Q_CHEAPER]
               [] [] w)
     = Returned ([A_COMPARE; A_CHEAPER], [TURN_COMPARE; TURN_CHEAPER],
                 [Q_COMPARE; Q_CHEAPER])
  /\ plans TURN_CHEAPER = plans TURN_COMPARE.
Proof.
  cbv zeta. repeat split; try (vm_compute; reflexivity). discriminate.
Qed.

(** Two follow-up questions after a comparison of three plans. *)
Lemma follow_up_record_identity_witness :
  let history := [TURN_COMPARE] in
  let run := process_utterances (B := builtins) (S := services) [Q_CHEAPER; Q_DEDUCTIBLE]
               history [Q_COMPARE]
               (scripted [Returned FOLLOW_UP_REPLY; Returned FOLLOW_UP_REPLY]
                  [Returned A_CHEAPER; Returned A_DEDUCTIBLE]) in
  no_store_call (calls run) = true
  /\ exists new : list HistoryItem,
       [TURN_COMPARE; TURN_CHEAPER; TURN_DEDUCTIBLE] = (history ++ new)%list
       /\ map user new = [Q_CHEAPER; Q_DEDUCTIBLE]
       /\ (forall i item,
             nth_error new i = Some item ->
             plans item
             = Some (get_plans_or_empty (last (history ++ firstn i new) TURN_COMPARE)))
       /\ Forall (fun item =>
                    plans item = Some (get_plans_or_empty (last history TURN_COMPARE))) new.
Proof.
  apply (follow_up_record_identity (B := builtins) (S := services) [Q_CHEAPER; Q_DEDUCTIBLE]
           TURN_COMPARE [] [Q_COMPARE]
           (scripted [Returned FOLLOW_UP_REPLY; Returned FOLLOW_UP_REPLY]
              [Returned A_CHEAPER; Returned A_DEDUCTIBLE])
           [A_CHEAPER; A_DEDUCTIBLE]
           [TURN_COMPARE; TURN_CHEAPER; TURN_DEDUCTIBLE]
           [Q_COMPARE; Q_CHEAPER; Q_DEDUCTIBLE]).
  - vm_compute. reflexivity.
  - vm_compute. reflexivity.
Defined.

(** A comparison, a follow-up, an off-topic question and a comparison of
    premiums the store does not have: two turns are committed. *)
Lemma append_on_success_only_witness :
  let w := scripted [Returned NEW_REPLY; Returned FOLLOW_UP_REPLY;
                     Returned INVALID_REPLY; Returned NEW_UNKNOWN_REPLY]
             [Returned A_COMPARE; Returned A_CHEAPER] in
  let inputs := [Q_COMPARE; Q_CHEAPER; Q_WEATHER; Q_UNKNOWN] in
  outcomes (B := builtins) (S := services) inputs [] [] w
  = [Some CommittedNew; Some CommittedFollowUp; Some Rejected; Some NoMatch]
  /\ (let n := List.length (filter committed (outcomes (B := builtins) (S := services) inputs [] [] w)) in
      List.length (outcomes (B := builtins) (S := services) inputs [] [] w) = List.length inputs
      /\ Forall (fun o => o <> None) (outcomes (B := builtins) (S := services) inputs [] [] w)
      /\ List.length [TURN_COMPARE; TURN_CHEAPER] = List.length (@nil HistoryItem) + n
      /\ List.length [Q_COMPARE; Q_CHEAPER] = List.length (@nil string) + n).
Proof.
  split; [vm_compute; reflexivity|].
  apply (proj2 (append_on_success_only (B := builtins) (S := services))
           [Q_COMPARE; Q_CHEAPER; Q_WEATHER; Q_UNKNOWN] [] []
           (scripted [Returned NEW_REPLY; Returned FOLLOW_UP_REPLY;
                      Returned INVALID_REPLY; Returned NEW_UNKNOWN_REPLY]
              [Returned A_COMPARE; Returned A_CHEAPER])
           [A_COMPARE; A_CHEAPER;
            INVALID_PREFIX ++ "Not insurance related";
            "No plans found for premiums: [11111, 99999]"]
           [TURN_COMPARE; TURN_CHEAPER] [Q_COMPARE; Q_CHEAPER]).
  vm_compute. reflexivity.
Defined.

(** A reply that is not JSON. *)
Lemma parse_fallback_on_undecodable_reply_witness :
  result (understand_question (B := builtins) (S := services) Q_COMPARE []
            (scripted [Returned GARBLED_REPLY] []))
  = Returned (VDict [ ("question_type", VStr "INVALID");
                      ("premium_amounts", VNone);
                      ("reason", VStr "Error parsing AI response") ])
  /\ result (chat (B := builtins) (S := services) Q_COMPARE [TURN_COMPARE] [Q_COMPARE]
               (scripted [Returned GARBLED_REPLY] []))
     = Returned (Some (INVALID_PREFIX ++ "Error parsing AI response",
                       [TURN_COMPARE], [Q_COMPARE])).
Proof.
  split.
  - apply (proj1 (parse_fallback_on_undecodable_reply (B := builtins) (S := services)
                    Q_COMPARE [] (scripted [Returned GARBLED_REPLY] [])
                    (AIMessage GARBLED_REPLY) (scripted [] []) eq_refl)).
  - apply (proj2 (parse_fallback_on_undecodable_reply (B := builtins) (S := services)
                    Q_COMPARE [Q_COMPARE] (scripted [Returned GARBLED_REPLY] [])
                    (AIMessage GARBLED_REPLY) (scripted [] []) eq_refl)).
    vm_compute. reflexivity.
Defined.

(** [C3], as stated, fails. A reply that is not JSON is answered with the
    reason ["Error parsing AI response"], not ["parse error"]; and the reply
    [[]], which is JSON but not the contract, is returned as the empty list,
    not as an INVALID intent, after which [chat] raises [TypeError]. *)
Lemma parse_fallback_counterexample :
  (exists understanding,
      result (understand_question (B := builtins) (S := services) Q_COMPARE []
                (scripted [Returned GARBLED_REPLY] []))
      = Returned understanding
      /\ getitem understanding "reason" = Returned (VStr "Error parsing AI response")
      /\ getitem understanding "reason" <> Returned (VStr "parse error"))
  /\ json_loads (Builtins := builtins) LIST_REPLY = Some (VList [])
  /\ result (understand_question (B := builtins) (S := services) Q_COMPARE []
               (scripted [Returned LIST_REPLY] []))
     = Returned (VList [])
  /\ question_type_is "INVALID" (VList []) = false
  /\ result (chat (B := builtins) (S := services) Q_COMPARE [] []
               (scripted [Returned LIST_REPLY] []))
     = Raised (TypeError Subscript (VList [])).
Proof.
  split.
  - eexists. split; [vm_compute; reflexivity|]. split; [reflexivity|discriminate].
  - repeat split; vm_compute; reflexivity.
Qed.

(** The provider is down when the classifier is called. *)
Lemma collaborator_failure_propagates_witness :
  result (chat (B := builtins) (S := services) Q_CHEAPER [TURN_COMPARE] [Q_COMPARE]
            (scripted [Raised OUTAGE] []))
  = Raised OUTAGE
  /\ result (chat_endpoint (B := builtins) (S := services)
               (Returned (VDict [("message", VStr Q_CHEAPER)]))
               (mkSession (Some [STORED_COMPARE]) (Some [Q_COMPARE]))
               (scripted [Raised OUTAGE] []))
     = Returned (mkResponse [("success", VBool false);
                             ("error", VStr "provider unavailable")] 500,
                 mkSession (Some [STORED_COMPARE]) (Some [Q_COMPARE])).
Proof.
  pose proof (collaborator_failure_propagates (B := builtins) (S := services)
                (Llm1Invoke (classifier_messages Q_CHEAPER [Q_COMPARE]) (Raised OUTAGE))
                OUTAGE eq_refl) as (Hchat & _ & Hweb).
  split.
  - apply Hchat. vm_compute. left. reflexivity.
  - apply (Hweb (Returned (VDict [("message", VStr Q_CHEAPER)]))
             (mkSession (Some [STORED_COMPARE]) (Some [Q_COMPARE]))).
    vm_compute. left. reflexivity.
Defined.

(** The web session after a comparison, then a follow-up. *)
Lemma log_lengths_stay_equal_witness :
  session_lengths_agree
    (mkSession (Some [STORED_COMPARE; mkItem Q_CHEAPER A_CHEAPER None])
       (Some [Q_COMPARE; Q_CHEAPER])).
Proof.
  apply (proj1 (proj2 (proj2 (log_lengths_stay_equal (B := builtins) (S := services))))
           (Returned (VDict [("message", VStr Q_CHEAPER)]))
           (mkSession (Some [STORED_COMPARE]) (Some [Q_COMPARE]))
           (scripted [Returned FOLLOW_UP_REPLY] [Returned A_CHEAPER])
           (mkResponse [("success", VBool true); ("response", VStr A_CHEAPER)] 200)).
  - vm_compute. reflexivity.
  - vm_compute. reflexivity.
Defined.

(** Premiums the store does not have; and a follow-up before any comparison. *)
Lemma no_match_and_empty_history_are_messages_witness :
  result (chat (B := builtins) (S := services) Q_UNKNOWN [TURN_COMPARE] [Q_COMPARE]
            (scripted [Returned NEW_UNKNOWN_REPLY] []))
  = Returned (Some ("No plans found for premiums: [11111, 99999]",
                    [TURN_COMPARE], [Q_COMPARE]))
  /\ result (chat (B := builtins) (S := services) Q_CHEAPER [] []
               (scripted [Returned FOLLOW_UP_REPLY] []))
     = Returned (Some (EMPTY_HISTORY_MESSAGE, [], [])).
Proof.
  split.
  - apply (proj1 (no_match_and_empty_history_are_messages (B := builtins) (S := services)
                    Q_UNKNOWN [TURN_COMPARE] [Q_COMPARE]
                    (scripted [Returned NEW_UNKNOWN_REPLY] [])
                    (reply_value "NEW" (VList [VInt 11111; VInt 99999])
                       "2 premiums to compare")
                    (VList [VInt 11111; VInt 99999])
                    eq_refl eq_refl)).
    + reflexivity.
    + vm_compute. reflexivity.
  - apply (proj2 (no_match_and_empty_history_are_messages (B := builtins) (S := services)
                    Q_CHEAPER [] []
                    (scripted [Returned FOLLOW_UP_REPLY] [])
                    (reply_value "FOLLOW_UP" VNone "Asking about previous results")
                    VNone eq_refl eq_refl)).
    reflexivity.
Defined.

(** The off-topic question, three times. *)
Lemma rejection_is_idempotent_witness :
  result (process_utterances (B := builtins) (S := services)
            [Q_WEATHER; Q_WEATHER; Q_WEATHER] [TURN_COMPARE] [Q_COMPARE]
            (scripted [Returned INVALID_REPLY; Returned INVALID_REPLY;
                       Returned INVALID_REPLY] []))
  = Returned (repeat (INVALID_PREFIX ++ "Not insurance related") 3,
              [TURN_COMPARE], [Q_COMPARE]).
Proof.
  apply (rejection_is_idempotent (B := builtins) (S := services) Q_WEATHER
           "Not insurance related" 3 [TURN_COMPARE] [Q_COMPARE]
           (scripted [Returned INVALID_REPLY; Returned INVALID_REPLY;
                      Returned INVALID_REPLY] [])).
  vm_compute. reflexivity.
Defined.

(** A follow-up sent to the web session that holds one stored comparison. *)
Lemma web_session_history_omits_records_witness :
  let session := mkSession (Some [STORED_COMPARE]) (Some [Q_COMPARE]) in
  let request := Returned (VDict [("message", VStr Q_CHEAPER)]) in
  let w := scripted [Returned FOLLOW_UP_REPLY] [Returned A_CHEAPER] in
  stored_without_plans
    (mkSession (Some [STORED_COMPARE; mkItem Q_CHEAPER A_CHEAPER None])
       (Some [Q_COMPARE; Q_CHEAPER]))
  /\ exists message reply response,
       calls (chat_endpoint (B := builtins) (S := services) request session w)
       = [ Llm1Invoke (classifier_messages message [Q_COMPARE]) reply;
           Llm2Invoke (advisor_messages message [] [STORED_COMPARE]) (Returned response) ]
       /\ [("success", VBool true); ("response", VStr A_CHEAPER)]
          = [("success", VBool true); ("response", VStr (content response))].
Proof.
  pose proof (web_session_history_omits_records (B := builtins) (S := services)
                (Returned (VDict [("message", VStr Q_CHEAPER)]))
                (mkSession (Some [STORED_COMPARE]) (Some [Q_COMPARE]))
                (scripted [Returned FOLLOW_UP_REPLY] [Returned A_CHEAPER])
                (mkResponse [("success", VBool true); ("response", VStr A_CHEAPER)] 200)
                (mkSession (Some [STORED_COMPARE; mkItem Q_CHEAPER A_CHEAPER None])
                   (Some [Q_COMPARE; Q_CHEAPER]))) as H.
  destruct H as (Hstored & _ & Hfollow); [vm_compute; reflexivity|].
  split; [apply Hstored; reflexivity|].
  apply Hfollow.
  - repeat constructor.
  - discriminate.
  - reflexivity.
  - vm_compute. reflexivity.
Defined.

(** A greeting intent; a reply without ["question_type"]; a reply without
    ["premium_amounts"]. *)
Lemma unrecognised_intent_and_missing_keys_witness :
  result (chat (B := builtins) (S := services) "hello" [] []
            (scripted [Returned GREETING_REPLY] []))
  = Returned None
  /\ result (chat (B := builtins) (S := services) Q_CHEAPER [] []
               (scripted [Returned NO_TYPE_REPLY] []))
     = Raised (KeyError "question_type")
  /\ result (chat (B := builtins) (S := services) Q_CHEAPER [TURN_COMPARE] [Q_COMPARE]
               (scripted [Returned NO_PREMIUMS_REPLY] []))
     = Raised (KeyError "premium_amounts").
Proof.
  split; [|split].
  - apply (proj1 (unrecognised_intent_and_missing_keys (B := builtins) (S := services)
                    "hello" [] [] (scripted [Returned GREETING_REPLY] []))
             (reply_value "GREETING" VNone "User says hello") (VStr "GREETING") VNone);
      reflexivity.
  - apply (proj1 (proj2 (unrecognised_intent_and_missing_keys
                           (B := builtins) (S := services)
                           Q_CHEAPER [] [] (scripted [Returned NO_TYPE_REPLY] []))
                    (AIMessage NO_TYPE_REPLY) (scripted [] [])
                    [("premium_amounts", VNone)] eq_refl eq_refl)).
    reflexivity.
  - apply (proj2 (proj2 (unrecognised_intent_and_missing_keys
                           (B := builtins) (S := services)
                           Q_CHEAPER [TURN_COMPARE] [Q_COMPARE]
                           (scripted [Returned NO_PREMIUMS_REPLY] []))
                    (AIMessage NO_PREMIUMS_REPLY) (scripted [] [])
                    [("question_type", VStr "FOLLOW_UP")] eq_refl eq_refl)).
    + discriminate.
    + reflexivity.
Defined.

(** * Further properties of the controller *)

Section MoreProperties.

Context {B : Builtins} {S : Services}.

(** ** What the generator is sent *)

Lemma string_app_nil_r (s : string) : s ++ EmptyString = s.
Proof. induction s as [|c s IH]; cbn; [reflexivity|now rewrite IH]. Qed.

Lemma string_app_assoc (a b c : string) : (a ++ b) ++ c = a ++ b ++ c.
Proof. induction a as [|x a IH]; cbn; [reflexivity|now rewrite IH]. Qed.

Lemma concat_empty_cons (s : string) (l : list string) :
  String.concat EmptyString (s :: l) = s ++ String.concat EmptyString l.
Proof. destruct l; cbn; [now rewrite string_app_nil_r|reflexivity]. Qed.

Lemma fold_left_append_concat {A} (f : A -> string) (l : list A) (acc : string) :
  fold_left (fun a x => a ++ f x) l acc = acc ++ String.concat EmptyString (map f l).
Proof.
  revert acc. induction l as [|x l IH]; intros acc.
  - cbn. now rewrite string_app_nil_r.
  - cbn [fold_left map]. now rewrite IH, concat_empty_cons, string_app_assoc.
Qed.

Lemma fold_left_replay (history : list HistoryItem) (acc : list Message) :
  fold_left (fun a item => (a ++ [HumanMessage (user item); AIMessage (bot item)])%list)
    history acc
  = (acc ++ flat_map replay history)%list.
Proof.
  revert acc. induction history as [|item history IH]; intros acc.
  - cbn. now rewrite app_nil_r.
  - cbn [fold_left flat_map]. rewrite IH. unfold replay at 2. now rewrite <- app_assoc.
Qed.

Lemma advisor_messages_replay (question : string) (plans : list Document)
    (history : list HistoryItem) :
  advisor_messages question plans history
  = (SystemMessage ADVISOR_INSTRUCTIONS
     :: flat_map replay history ++ [HumanMessage (question_text question plans)])%list.
Proof.
  unfold advisor_messages, question_text. cbv zeta.
  replace (match history with
           | [] => [SystemMessage ADVISOR_INSTRUCTIONS]
           | _ :: _ =>
               fold_left (fun acc item =>
                            (acc ++ [HumanMessage (user item); AIMessage (bot item)])%list)
                 history [SystemMessage ADVISOR_INSTRUCTIONS]
           end)
    with (SystemMessage ADVISOR_INSTRUCTIONS :: flat_map replay history)
    by (destruct history; [reflexivity|now rewrite fold_left_replay]).
  replace (match plans with
           | [] => "No plans available"
           | _ :: _ =>
               fold_left (fun acc plan => acc ++ page_content plan ++ nl ++ nl)
                 plans EmptyString
           end)
    with (match plans with
          | [] => "No plans available"
          | _ :: _ => String.concat EmptyString
                        (map (fun plan => page_content plan ++ nl ++ nl) plans)
          end)
    by (destruct plans; [reflexivity|now rewrite fold_left_append_concat]).
  reflexivity.
Qed.

(** [X1] What [generate_answer] sends. It makes exactly one call, to [llm2],
    with the system prompt first, then every history item oldest first as a
    user message followed by an assistant message, then one user message
    holding the text of the plans (or "No plans available") and the question.
    It returns the content of the reply, or raises what [llm2] raised. *)
Theorem generate_answer_sends_replayed_history :
  forall (question : string) (plans : list Document) (history : list HistoryItem)
         (w : world),
  exists res : Outcome Message,
    calls (generate_answer question plans history w)
    = [ Llm2Invoke
          (SystemMessage ADVISOR_INSTRUCTIONS
           :: flat_map replay history
              ++ [HumanMessage (question_text question plans)])%list
          res ]
    /\ List.length (SystemMessage ADVISOR_INSTRUCTIONS
                    :: flat_map replay history
                       ++ [HumanMessage (question_text question plans)])%list
       = 2 * List.length history + 2
    /\ result (generate_answer question plans history w)
       = match res with
         | Returned response => Returned (content response)
         | Raised e => Raised e
         end.
Proof.
  intros question plans history w. rewrite generate_answer_run. cbv zeta.
  rewrite advisor_messages_replay.
  eexists. split; [reflexivity|]. split; [|reflexivity].
  cbn [List.length]. rewrite length_app. cbn [List.length].
  assert (H : List.length (flat_map replay history) = 2 * List.length history).
  { induction history as [|item history IH]; [reflexivity|].
    cbn [flat_map]. rewrite length_app, IH. cbn [replay List.length]. lia. }
  lia.
Qed.

Lemma replay_by_fields (h h' : list HistoryItem) :
  map user h = map user h' -> map bot h = map bot h' ->
  flat_map replay h = flat_map replay h'.
Proof.
  revert h'. induction h as [|item h IH]; intros [|item' h'] Hu Hb;
    try discriminate; [reflexivity|].
  cbn [map] in Hu, Hb. injection Hu as Hu1 Hu2. injection Hb as Hb1 Hb2.
  cbn [flat_map]. unfold replay at 1 3. now rewrite Hu1, Hb1, (IH h' Hu2 Hb2).
Qed.

(** [X2] The generator reads text only. The messages [generate_answer] sends
    depend on the plans only through their [page_content] and on the history
    only through the ["user"] and ["bot"] of its items: the metadata of the
    plans and the ["plans"] cached in the history never reach [llm2]. *)
Theorem generator_reads_text_only :
  forall (question : string) (plans plans' : list Document)
         (history history' : list HistoryItem) (w : world),
    map page_content plans = map page_content plans' ->
    map user history = map user history' ->
    map bot history = map bot history' ->
    generate_answer question plans history w
    = generate_answer question plans' history' w.
Proof.
  intros question plans plans' history history' w Hp Hu Hb.
  rewrite !generate_answer_run, !advisor_messages_replay.
  rewrite (replay_by_fields _ _ Hu Hb).
  assert (Ht : question_text question plans = question_text question plans').
  { unfold question_text.
    assert (Hmap : map (fun plan => page_content plan ++ nl ++ nl) plans
                   = map (fun plan => page_content plan ++ nl ++ nl) plans').
    { rewrite <- (map_map page_content (fun s => s ++ nl ++ nl) plans),
              <- (map_map page_content (fun s => s ++ nl ++ nl) plans').
      now rewrite Hp. }
    destruct plans, plans'; try discriminate; [reflexivity|]. now rewrite Hmap. }
  now rewrite Ht.
Qed.

(** ** The shape of the trace of [chat] *)

Lemma get_plans_from_calls_store (premiums : list value) :
  forall (plans : list Document) (w : world),
    forallb is_store_call (calls (get_plans_from plans premiums w)) = true.
Proof.
  induction premiums as [|premium rest IH]; intros plans w; [reflexivity|].
  cbn [get_plans_from]. rewrite calls_bind, forallb_app. apply andb_true_iff. split.
  - unfold similarity_search. now destruct (vector_db_similarity_search _ _ _ w).
  - destruct (result (similarity_search _ _ _ w)) as [[|first more]|e];
      [apply IH|apply IH|reflexivity].
Qed.

Lemma get_plans_calls_store (premiums : value) (w : world) :
  forallb is_store_call (calls (get_plans premiums w)) = true.
Proof.
  unfold get_plans. rewrite calls_bind, forallb_app.
  destruct (iterate premiums) as [items|e]; cbn; [|reflexivity].
  apply get_plans_from_calls_store.
Qed.

(** What [chat] adds to the call of the classifier: nothing; or the lookups
    of a fetch that raised or found nothing; or the lookups and one call to
    the generator (NEW); or one call to the generator (FOLLOW_UP). *)
Lemma chat_trace_cases (question : string) (history : list HistoryItem)
    (prev_questions : list string) (w : world) :
  let classified := understand_question question prev_questions w in
  calls (chat question history prev_questions w) = calls classified
  \/ (exists premiums,
        let fetched := get_plans premiums (after classified) in
        (calls (chat question history prev_questions w)
         = (calls classified ++ calls fetched)%list)
        \/ (exists plans,
              let messages := advisor_messages question plans history in
              let reply := llm2_invoke messages (after fetched) in
              calls (chat question history prev_questions w)
              = (calls classified ++ calls fetched
                 ++ [Llm2Invoke messages (fst reply)])%list
              /\ result (chat question history prev_questions w)
                 = match fst reply with
                   | Returned response =>
                       Returned (Some (content response,
                                       history ++ [mkItem question (content response)
                                                     (Some plans)],
                                       prev_questions ++ [question]))%list
                   | Raised e => Raised e
                   end))
  \/ (exists plans,
        let messages := advisor_messages question plans history in
        let reply := llm2_invoke messages (after classified) in
        calls (chat question history prev_questions w)
        = (calls classified ++ [Llm2Invoke messages (fst reply)])%list
        /\ result (chat question history prev_questions w)
           = match fst reply with
             | Returned response =>
                 Returned (Some (content response,
                                 history ++ [mkItem question (content response)
                                               (Some plans)],
                                 prev_questions ++ [question]))%list
             | Raised e => Raised e
             end).
Proof.
  cbv zeta.
  destruct (result (understand_question question prev_questions w))
    as [understanding|e] eqn:Hc.
  2:{ left. now rewrite (chat_classifier_raised _ _ _ _ _ Hc). }
  destruct (getitem understanding "question_type") as [q_type|e] eqn:Ht.
  2:{ left. now rewrite (chat_no_question_type _ _ _ _ _ Hc _ Ht). }
  destruct (getitem understanding "premium_amounts") as [premiums|e] eqn:Hp.
  2:{ left. now rewrite (chat_no_premium_amounts _ _ _ _ _ Hc _ Ht _ Hp). }
  destruct (eq_str q_type "INVALID") eqn:E1.
  { apply eq_str_true in E1. left.
    destruct (getitem understanding "reason") as [reason|e] eqn:Hr.
    - now rewrite (chat_invalid _ _ _ _ _ Hc _ Ht _ Hp _ E1 Hr).
    - now rewrite (chat_invalid_no_reason _ _ _ _ _ Hc _ Ht _ Hp _ E1 Hr). }
  destruct (eq_str q_type "NEW") eqn:E2.
  { apply eq_str_true in E2. right. left. exists premiums.
    destruct (result (get_plans premiums (after (understand_question question prev_questions w))))
      as [[|d ds]|e] eqn:Hf.
    - left. now rewrite (chat_new_no_match _ _ _ _ _ Hc _ Ht _ Hp E2 Hf).
    - right. exists (d :: ds).
      rewrite (chat_new_found _ _ _ _ _ Hc _ Ht _ Hp _ E2 Hf) by discriminate.
      split; reflexivity.
    - left. now rewrite (chat_new_fetch_raised _ _ _ _ _ Hc _ Ht _ Hp _ E2 Hf). }
  destruct (eq_str q_type "FOLLOW_UP") eqn:E3.
  { apply eq_str_true in E3. destruct history as [|first earlier].
    - left. now rewrite (chat_follow_up_empty _ _ _ _ _ Hc _ Ht _ Hp E3 eq_refl).
    - right. right. exists (get_plans_or_empty (last (first :: earlier) first)).
      rewrite (chat_follow_up _ _ _ _ _ Hc _ Ht _ Hp _ _ E3 eq_refl).
      split; reflexivity. }
  left. now rewrite (chat_unrecognised _ _ _ _ _ Hc _ Ht _ Hp E1 E2 E3).
Qed.

Lemma understand_question_calls (question : string) (prev_questions : list string)
    (w : world) :
  calls (understand_question question prev_questions w)
  = [Llm1Invoke (classifier_messages question prev_questions)
       (fst (llm1_invoke (classifier_messages question prev_questions) w))].
Proof. now rewrite understand_question_run. Qed.

(** [X3] The order of the service calls. Whatever the utterance and whatever
    the services answer, [chat] calls the classifier exactly once and first,
    then makes its store lookups, then calls the generator at most once and
    last: it never classifies twice, never looks up after generating and
    never generates twice. *)
Theorem chat_calls_in_order :
  forall (question : string) (history : list HistoryItem) (prev_questions : list string)
         (w : world),
  exists (reply : Outcome Message) (lookups generation : list Call),
    calls (chat question history prev_questions w)
    = (Llm1Invoke (classifier_messages question prev_questions) reply
       :: lookups ++ generation)%list
    /\ forallb is_store_call lookups = true
    /\ forallb is_generator_call generation = true
    /\ List.length generation <= 1.
Proof.
  intros question history prev_questions w.
  exists (fst (llm1_invoke (classifier_messages question prev_questions) w)).
  destruct (chat_trace_cases question history prev_questions w)
    as [H|[(premiums & [H|(plans & H & _)])|(plans & H & _)]];
    rewrite H, understand_question_calls.
  - exists [], []. repeat split; auto.
  - exists (calls (get_plans premiums
                     (after (understand_question question prev_questions w)))), [].
    rewrite app_nil_r. repeat split; auto. apply get_plans_calls_store.
  - exists (calls (get_plans premiums
                     (after (understand_question question prev_questions w)))).
    eexists. split; [reflexivity|]. split; [apply get_plans_calls_store|].
    split; [reflexivity|]. cbn. lia.
  - exists []. eexists. split; [reflexivity|]. repeat split; auto.
Qed.

(** [X4] A generated answer is always committed as generated. If the trace of
    [chat] holds a call to the generator that returned, then [chat] returns
    that reply's content as the answer and appends one item whose ["bot"] is
    that content and whose ["plans"] are the very records the generator was
    shown, together with the question. *)
Theorem generated_answer_is_committed :
  forall (question : string) (history : list HistoryItem) (prev_questions : list string)
         (w : world) (messages : list Message) (response : Message),
    In (Llm2Invoke messages (Returned response))
       (calls (chat question history prev_questions w)) ->
    exists records : list Document,
      messages = advisor_messages question records history
      /\ result (chat question history prev_questions w)
         = Returned (Some (content response,
                           history ++ [mkItem question (content response) (Some records)],
                           prev_questions ++ [question]))%list.
Proof.
  intros question history prev_questions w messages response Hin.
  assert (Hstore : forall premiums w1,
             ~ In (Llm2Invoke messages (Returned response)) (calls (get_plans premiums w1))).
  { intros premiums w1 Hin1.
    pose proof (get_plans_calls_store premiums w1) as Hall.
    rewrite forallb_forall in Hall. specialize (Hall _ Hin1). discriminate. }
  assert (Hfirst : ~ In (Llm2Invoke messages (Returned response))
                       (calls (understand_question question prev_questions w))).
  { rewrite understand_question_calls. intros [H|[]]. discriminate. }
  destruct (chat_trace_cases question history prev_questions w)
    as [H|[(premiums & [H|(plans & H & Hres)])|(plans & H & Hres)]];
    rewrite H in Hin; cbv zeta in *.
  - contradiction.
  - apply in_app_or in Hin as [Hin|Hin]; [contradiction|]. now apply Hstore in Hin.
  - apply in_app_or in Hin as [Hin|Hin]; [contradiction|].
    apply in_app_or in Hin as [Hin|[Hin|[]]]; [now apply Hstore in Hin|].
    injection Hin as Hm Hr. exists plans. split; [now rewrite Hm|].
    now rewrite Hres, Hr.
  - apply in_app_or in Hin as [Hin|[Hin|[]]]; [contradiction|].
    injection Hin as Hm Hr. exists plans. split; [now rewrite Hm|].
    now rewrite Hres, Hr.
Qed.

(** [X17] An utterance that is not committed never reaches the generator.
    When [chat] returns [None], or returns the history and the question log it
    was given (a rejection, an empty match, an empty history), its trace holds
    no call to [llm2]: such an utterance costs the classification and at most
    the store lookups. *)
Theorem uncommitted_utterance_is_not_generated :
  forall (question : string) (history : list HistoryItem) (prev_questions : list string)
         (w : world) (r : option Reply),
    result (chat question history prev_questions w) = Returned r ->
    r = None \/ (exists answer, r = Some (answer, history, prev_questions)) ->
    forallb (fun c => negb (is_generator_call c))
      (calls (chat question history prev_questions w)) = true.
Proof.
  intros question history prev_questions w r Hr Hkept.
  assert (Hgrow : forall (item : HistoryItem), (history ++ [item])%list <> history).
  { intros item H. apply (f_equal (@List.length _)) in H. rewrite length_app in H.
    cbn [List.length] in H. lia. }
  assert (Hcommit : forall (reply : Outcome Message) (plans : list Document),
             result (chat question history prev_questions w)
             = match reply with
               | Returned response =>
                   Returned (Some (content response,
                                   history ++ [mkItem question (content response)
                                                 (Some plans)],
                                   prev_questions ++ [question]))%list
               | Raised e => Raised e
               end -> False).
  { intros reply plans H. rewrite Hr in H. destruct reply as [response|e]; [|discriminate].
    injection H as ->. destruct Hkept as [H|(answer & H)]; [discriminate|].
    injection H as _ H _. now apply Hgrow in H. }
  assert (Hstore : forall trace,
             forallb is_store_call trace = true ->
             forallb (fun c => negb (is_generator_call c)) trace = true).
  { intros trace H. rewrite forallb_forall in *. intros c Hin.
    specialize (H c Hin). now destruct c. }
  destruct (chat_trace_cases question history prev_questions w)
    as [H|[(premiums & [H|(plans & _ & Hres)])|(plans & _ & Hres)]]; cbv zeta in *.
  - rewrite H, understand_question_calls. reflexivity.
  - rewrite H, forallb_app, understand_question_calls. cbn [forallb is_generator_call negb].
    apply Hstore, get_plans_calls_store.
  - now apply Hcommit in Hres.
  - now apply Hcommit in Hres.
Qed.

(** ** A comparison and its follow-ups *)

Lemma follow_up_run :
  forall (inputs : list string) (first : HistoryItem) (earlier : list HistoryItem)
         (prev_questions : list string) (w : world) (answers : list string)
         (history' : list HistoryItem) (prev_questions' : list string),
    result (process_utterances inputs (first :: earlier) prev_questions w)
    = Returned (answers, history', prev_questions') ->
    classifier_replied (question_type_is "FOLLOW_UP")
      (calls (process_utterances inputs (first :: earlier) prev_questions w)) = true ->
    exists new : list HistoryItem,
      history' = ((first :: earlier) ++ new)%list
      /\ map user new = inputs
      /\ Forall (fun item =>
                   plans item
                   = Some (get_plans_or_empty (last (first :: earlier) first))) new
      /\ forallb (fun c => negb (is_store_call c))
           (calls (process_utterances inputs (first :: earlier) prev_questions w)) = true.
Proof.
  induction inputs as [|question rest IH];
    intros first earlier prev_questions w answers history' prev_questions' Hrun Hreplies.
  - cbn in Hrun. injection Hrun as _ <- _. exists []. rewrite app_nil_r. auto.
  - rewrite process_utterances_cons in Hrun, Hreplies |- *. cbv zeta in *.
    destruct (result (chat question (first :: earlier) prev_questions w))
      as [[[[answer h1] q1]|]|e] eqn:Hstep; cbn [result calls] in *; try discriminate.
    rewrite classifier_replied_app in Hreplies.
    apply andb_true_iff in Hreplies as [Hhead Htail].
    destruct (follow_up_step _ _ _ _ _ _ Hstep Hhead) as (Hstore & a & Heq).
    injection Heq as Ha Hh1 Hq1. subst a h1 q1.
    set (item := mkItem question answer
                   (Some (get_plans_or_empty (last (first :: earlier) first)))) in *.
    destruct (result (process_utterances rest _ _ _)) as [[[answers1 h2] q2]|e] eqn:Hrest;
      [|discriminate].
    injection Hrun as _ Hh2 _. subst h2.
    destruct (IH first (earlier ++ [item])%list _ _ _ _ _ Hrest Htail)
      as (new & Hh & Hmap & Hall & Hstore').
    assert (Hlast : last (first :: earlier ++ [item]) first = item)
      by apply (last_last (first :: earlier) item first).
    exists (item :: new). repeat split.
    + rewrite Hh. apply (eq_sym (app_assoc (first :: earlier) [item] new)).
    + cbn [map]. now rewrite Hmap.
    + constructor; [reflexivity|]. rewrite Hlast in Hall. exact Hall.
    + rewrite forallb_app. unfold no_store_call in Hstore. rewrite Hstore. exact Hstore'.
Qed.

Lemma step_outcome_committed_new (question : string) (history : list HistoryItem)
    (prev_questions : list string) (w : world) :
  step_outcome question history prev_questions w = Some CommittedNew ->
  exists understanding premiums first more,
    result (understand_question question prev_questions w) = Returned understanding
    /\ getitem understanding "question_type" = Returned (VStr "NEW")
    /\ getitem understanding "premium_amounts" = Returned premiums
    /\ result (get_plans premiums (after (understand_question question prev_questions w)))
       = Returned (first :: more).
Proof.
  unfold step_outcome. cbv zeta.
  destruct (result (understand_question question prev_questions w))
    as [understanding|e] eqn:Hc; [|discriminate].
  destruct (question_type_is "INVALID" understanding); [discriminate|].
  destruct (question_type_is "NEW" understanding) eqn:Hnew.
  - apply question_type_is_true in Hnew.
    destruct (getitem understanding "premium_amounts") as [premiums|e] eqn:Hp;
      [|discriminate].
    destruct (result (get_plans premiums _)) as [[|first more]|e] eqn:Hf; try discriminate.
    intros _. exists understanding, premiums, first, more. auto.
  - destruct (question_type_is "FOLLOW_UP" understanding); [|discriminate].
    destruct history; discriminate.
Qed.

(** [X5] A comparison's records serve all its follow-ups. When an utterance
    is committed as a NEW comparison and any number of utterances classified
    FOLLOW_UP come after it, the item of the comparison caches exactly what
    [get_plans] fetched for it, every follow-up item caches that same list,
    and the follow-ups make no store lookup at all. *)
Theorem comparison_records_serve_follow_ups :
  forall (question : string) (follow_ups : list string) (history : list HistoryItem)
         (prev_questions : list string) (w : world) (answer : string)
         (history1 : list HistoryItem) (prev_questions1 : list string)
         (answers : list string) (history' : list HistoryItem)
         (prev_questions' : list string),
    let step := chat question history prev_questions w in
    let tail := process_utterances follow_ups history1 prev_questions1 (after step) in
    result step = Returned (Some (answer, history1, prev_questions1)) ->
    step_outcome question history prev_questions w = Some CommittedNew ->
    result tail = Returned (answers, history', prev_questions') ->
    classifier_replied (question_type_is "FOLLOW_UP") (calls tail) = true ->
    exists (premiums : value) (fetched : list Document) (new : list HistoryItem),
      result (get_plans premiums (after (understand_question question prev_questions w)))
      = Returned fetched
      /\ fetched <> []
      /\ history' = (history ++ mkItem question answer (Some fetched) :: new)%list
      /\ map user new = follow_ups
      /\ Forall (fun item => plans item = Some fetched) new
      /\ forallb (fun c => negb (is_store_call c)) (calls tail) = true.
Proof.
  cbv zeta.
  intros question follow_ups history prev_questions w answer history1 prev_questions1
    answers history' prev_questions' Hstep Hnew Htail Hreplies.
  destruct (step_outcome_committed_new _ _ _ _ Hnew)
    as (understanding & premiums & first & more & Hc & Ht & Hp & Hf).
  rewrite (chat_new_found _ _ _ _ _ Hc _ Ht _ Hp _ eq_refl Hf) in Hstep by discriminate.
  cbv zeta in Hstep. cbn [result] in Hstep.
  destruct (fst (llm2_invoke _ _)) as [response|e]; [|discriminate].
  injection Hstep as Ha Hh1 Hq1. subst answer history1 prev_questions1.
  set (item := mkItem question (content response) (Some (first :: more))) in *.
  exists premiums, (first :: more).
  assert (Hshape : exists head rest,
             (history ++ [item])%list = head :: rest
             /\ last (head :: rest) head = item).
  { destruct history as [|h0 hs].
    - exists item, []. auto.
    - exists h0, (hs ++ [item])%list. split; [reflexivity|].
      apply (last_last (h0 :: hs) item h0). }
  destruct Hshape as (head & rest & Heq & Hlast).
  rewrite Heq in Htail, Hreplies |- *.
  destruct (follow_up_run _ _ _ _ _ _ _ _ Htail Hreplies)
    as (new & Hh & Hmap & Hall & Hstore).
  exists new. rewrite Hlast in Hall. rewrite <- Heq in Hh.
  repeat split; auto; try discriminate.
  rewrite Hh. now rewrite <- app_assoc.
Qed.

(** [X6] The question log is the list of the questions of the history. If
    [prev_questions] equals the ["user"] fields of [history], in order, it
    still does after a call of [chat] that returns its tuple, after the loop
    over any sequence of utterances, and in the web session after any /chat
    request, [home] and reset. *)
Theorem question_log_is_users_of_history :
  (forall question history prev_questions w answer history' prev_questions',
      question_log_matches history prev_questions ->
      result (chat question history prev_questions w)
      = Returned (Some (answer, history', prev_questions')) ->
      question_log_matches history' prev_questions')
  /\ (forall inputs history prev_questions w answers history' prev_questions',
        question_log_matches history prev_questions ->
        result (process_utterances inputs history prev_questions w)
        = Returned (answers, history', prev_questions') ->
        question_log_matches history' prev_questions')
  /\ (forall request_json session w resp session',
        question_log_matches (get_or_empty (session_history session))
          (get_or_empty (session_prev_questions session)) ->
        result (chat_endpoint request_json session w) = Returned (resp, session') ->
        question_log_matches (get_or_empty (session_history session'))
          (get_or_empty (session_prev_questions session')))
  /\ (forall session,
        question_log_matches (get_or_empty (session_history session))
          (get_or_empty (session_prev_questions session)) ->
        question_log_matches (get_or_empty (session_history (home session)))
          (get_or_empty (session_prev_questions (home session)))
        /\ question_log_matches
             (get_or_empty (session_history (snd (reset_conversation session))))
             (get_or_empty (session_prev_questions (snd (reset_conversation session))))).
Proof.
  assert (Hstep : forall question history prev_questions w answer history' prev_questions',
             question_log_matches history prev_questions ->
             result (chat question history prev_questions w)
             = Returned (Some (answer, history', prev_questions')) ->
             question_log_matches history' prev_questions').
  { unfold question_log_matches.
    intros question history prev_questions w answer history' prev_questions' Hinv H.
    apply chat_step in H.
    destruct (step_outcome question history prev_questions w) as [[]|];
      try (destruct H as (a & H); injection H as _ -> ->; exact Hinv);
      try (destruct H as (a & records & H); injection H as _ -> ->;
           rewrite map_app, Hinv; reflexivity).
    discriminate. }
  split; [exact Hstep|]. split; [|split].
  - induction inputs as [|user_input rest IH];
      intros history prev_questions w answers history' prev_questions' Hinv H.
    + cbn in H. injection H as _ <- <-. exact Hinv.
    + rewrite process_utterances_cons in H. cbv zeta in H.
      destruct (result (chat user_input history prev_questions w))
        as [[[[answer h1] q1]|]|e] eqn:Hone; cbn [result] in H; try discriminate.
      destruct (result (process_utterances rest h1 q1 _)) as [[[answers1 h2] q2]|e] eqn:Hrest;
        [|discriminate].
      injection H as _ <- <-.
      exact (IH _ _ _ _ _ _ (Hstep _ _ _ _ _ _ _ Hinv Hone) Hrest).
  - intros request_json session w resp session' Hinv H.
    destruct (chat_endpoint_cases _ _ _ _ _ H)
      as [[-> _]|(message & answer & h1 & q1 & Hchat & _ & _ & ->)]; [exact Hinv|].
    cbn [session_history session_prev_questions get_or_empty].
    pose proof (Hstep _ _ _ _ _ _ _ Hinv Hchat) as Hnext.
    unfold question_log_matches in *. rewrite map_map. exact Hnext.
  - intros session Hinv. split; [|reflexivity].
    destruct session as [[h|] [pq|]]; exact Hinv.
Qed.

(** ** A NEW intent without a list, and fetching in two batches *)

(** [X7] A NEW intent whose premium amounts are not iterable. When the
    classifier returns a NEW intent whose ["premium_amounts"] is [null], a
    boolean or a number, the [for] loop of [get_plans] raises [TypeError]:
    [chat] raises it after the single call to the classifier, without any
    store lookup, and returns no message. *)
Theorem new_intent_without_a_list_raises :
  forall (question : string) (history : list HistoryItem) (prev_questions : list string)
         (w : world) (understanding premiums : value),
    result (understand_question question prev_questions w) = Returned understanding ->
    getitem understanding "question_type" = Returned (VStr "NEW") ->
    getitem understanding "premium_amounts" = Returned premiums ->
    (premiums = VNone \/ (exists b, premiums = VBool b)
     \/ (exists n, premiums = VInt n) \/ (exists x, premiums = VFloat x)) ->
    chat question history prev_questions w
    = mkRun (Raised (TypeError Iteration premiums))
        (after (understand_question question prev_questions w))
        (calls (understand_question question prev_questions w)).
Proof.
  intros question history prev_questions w understanding premiums Hc Ht Hp Hshape.
  assert (Hfetch : forall w1,
             get_plans premiums w1 = mkRun (Raised (TypeError Iteration premiums)) w1 []).
  { intros w1. unfold get_plans.
    destruct Hshape as [->|[(b & ->)|[(n & ->)|(x & ->)]]]; reflexivity. }
  rewrite (chat_new_fetch_raised _ _ _ _ _ Hc _ Ht _ Hp (TypeError Iteration premiums)
             eq_refl)
    by now rewrite Hfetch.
  rewrite Hfetch. cbn [after calls]. now rewrite app_nil_r.
Qed.

Lemma bind_ext {A C} (m : M A) (k k' : A -> M C) (w : world) :
  (forall a w', k a w' = k' a w') -> bind m k w = bind m k' w.
Proof.
  intros H. unfold bind. cbv zeta. destruct (result (m w)); [|reflexivity]. now rewrite H.
Qed.

Lemma bind_cong {A C} (m m' : M A) (k : A -> M C) (w : world) :
  m w = m' w -> bind m k w = bind m' k w.
Proof. intros H. unfold bind. now rewrite H. Qed.

Lemma get_plans_from_shift (keys : list value) :
  forall (plans : list Document) (w : world),
    get_plans_from plans keys w
    = bind (get_plans_from [] keys) (fun docs => ret (plans ++ docs)%list) w.
Proof.
  induction keys as [|key rest IH]; intros plans w.
  - cbn [get_plans_from]. rewrite bind_ret. now rewrite app_nil_r.
  - cbn [get_plans_from]. rewrite bind_bind. apply bind_ext.
    intros [|first more] w1.
    + apply IH.
    + rewrite (IH (plans ++ [first])%list w1).
      rewrite (bind_cong _ _ _ _ (IH ([] ++ [first])%list w1)), bind_bind.
      apply bind_ext. intros docs w2. rewrite bind_ret. now rewrite <- app_assoc.
Qed.

Lemma get_plans_from_app (keys1 keys2 : list value) :
  forall (plans : list Document) (w : world),
    get_plans_from plans (keys1 ++ keys2) w
    = bind (get_plans_from plans keys1) (fun fetched => get_plans_from fetched keys2) w.
Proof.
  induction keys1 as [|key rest IH]; intros plans w.
  - cbn [app get_plans_from]. now rewrite bind_ret.
  - cbn [app get_plans_from]. rewrite bind_bind. apply bind_ext.
    intros [|first more] w1; apply IH.
Qed.

(** [X8] Fetching in two batches. Fetching the keys [keys1 ++ keys2] in one
    call of [get_plans] is the same run (same store calls in the same order,
    same final world, same exception if a lookup raises) as fetching [keys1],
    then [keys2], and appending the two results. *)
Theorem get_plans_of_concatenation :
  forall (keys1 keys2 : list value) (w : world),
    get_plans (VList (keys1 ++ keys2)) w
    = bind (get_plans (VList keys1))
        (fun docs1 =>
           bind (get_plans (VList keys2)) (fun docs2 => ret (docs1 ++ docs2)%list)) w.
Proof.
  intros keys1 keys2 w.
  assert (Hlist : forall keys w1, get_plans (VList keys) w1 = get_plans_from [] keys w1).
  { intros keys w1. unfold get_plans.
    now rewrite (bind_lift_returned (iterate (VList keys)) _ _ keys eq_refl). }
  rewrite Hlist, get_plans_from_app.
  rewrite (bind_cong _ _ _ _ (eq_sym (Hlist keys1 w))).
  apply bind_ext. intros docs1 w1. rewrite get_plans_from_shift.
  apply bind_cong. now rewrite Hlist.
Qed.

(** ** Requests at the serving boundary *)

Ltac open_endpoint :=
  unfold chat_endpoint; rewrite try_except_run.

(** The [if not data or 'message' not in data] test, once its value is known. *)
Lemma bind_missing {C} (data : value) (k : bool -> M C) (w : world) :
  bind (if negb (truthy data) then ret true
        else (present <- lift (contains "message" data) ;; ret (negb present))) k w
  = if truthy data
    then match contains "message" data with
         | Returned present => k (negb present) w
         | Raised e => mkRun (Raised e) w []
         end
    else k true w.
Proof.
  destruct (truthy data); cbn [negb].
  - rewrite bind_bind. destruct (contains "message" data) as [present|e].
    + now rewrite (bind_lift_returned _ _ _ _ eq_refl), bind_ret.
    + now rewrite (bind_lift_raised _ _ _ _ eq_refl).
  - now rewrite bind_ret.
Qed.

Lemma dict_get_truthy (entries : list (string * value)) (key : string) (v : value) :
  dict_get entries key = Some v ->
  truthy (VDict entries) = true /\ contains key (VDict entries) = Returned true.
Proof.
  intros H. destruct entries; [discriminate|]. split; [reflexivity|].
  unfold contains. now rewrite H.
Qed.

(** A request that carries a message runs [chat] on the stripped message. *)
Lemma chat_endpoint_served (entries : list (string * value)) (raw : string)
    (session : Session) (w : world) :
  message_request entries raw ->
  str_strip raw <> EmptyString ->
  chat_endpoint (Returned (VDict entries)) session w
  = let step := chat (str_strip raw) (get_or_empty (session_history session))
                  (get_or_empty (session_prev_questions session)) w in
    mkRun (Returned
             match result step with
             | Returned (Some (answer, history', prev_questions')) =>
                 (mkResponse [("success", VBool true); ("response", VStr answer)] 200,
                  mkSession
                    (Some (map (fun item => mkItem (user item) (bot item) None) history'))
                    (Some prev_questions'))
             | Returned None => (refusal 500 (exn_str (TypeError Unpacking VNone)), session)
             | Raised e => (refusal 500 (exn_str e), session)
             end)
      (after step) (calls step).
Proof.
  intros Hmsg Hnonempty. unfold message_request in Hmsg.
  destruct (dict_get_truthy _ _ _ Hmsg) as [Htruthy Hcontains].
  open_endpoint. rewrite (bind_lift_returned _ _ _ _ eq_refl), bind_missing.
  rewrite Htruthy, Hcontains. cbn [negb].
  assert (Hget : getitem (VDict entries) "message" = Returned (VStr raw))
    by (cbn; now rewrite Hmsg).
  rewrite (bind_lift_returned _ _ _ _ Hget).
  rewrite (bind_lift_returned (strip (VStr raw)) _ _ (str_strip raw) eq_refl).
  apply String.eqb_neq in Hnonempty. rewrite Hnonempty. cbv zeta.
  destruct (result (chat (str_strip raw) _ _ w)) as [[[[answer h1] q1]|]|e] eqn:Hstep.
  - rewrite (bind_returned _ _ _ _ Hstep). cbn [unpack]. rewrite bind_ret.
    cbn [prepend ret result calls after]. now rewrite app_nil_r.
  - rewrite (bind_returned _ _ _ _ Hstep). cbn [unpack].
    unfold bind at 1 2 3. cbn [raise prepend result after calls]. now rewrite app_nil_r.
  - now rewrite (bind_raised _ _ _ _ Hstep).
Qed.

(** Every other request is refused before any service is called, with a
    status and a text that depend on the request only. *)
Lemma chat_endpoint_run (request_json : Outcome value) :
  (exists code text,
      (code = 400 \/ code = 500)
      /\ forall session w,
           chat_endpoint request_json session w
           = mkRun (Returned (refusal code text, session)) w [])
  \/ (exists entries raw,
        request_json = Returned (VDict entries)
        /\ message_request entries raw
        /\ str_strip raw <> EmptyString).
Proof.
  destruct request_json as [data|e].
  2:{ left. exists 500, (exn_str e). split; [auto|]. intros session w. open_endpoint.
      now rewrite (bind_lift_raised _ _ _ _ eq_refl). }
  destruct (truthy data) eqn:Htruthy.
  2:{ left. exists 400, "message is required". split; [auto|]. intros session w.
      open_endpoint. rewrite (bind_lift_returned _ _ _ _ eq_refl), bind_missing, Htruthy.
      reflexivity. }
  destruct (contains "message" data) as [[|]|e] eqn:Hcontains.
  - destruct (getitem data "message") as [raw0|e] eqn:Hget.
    + destruct (strip raw0) as [message|e] eqn:Hstrip.
      * destruct (String.eqb message EmptyString) eqn:Hempty.
        -- left. exists 400, "message cannot be empty". split; [auto|].
           intros session w. open_endpoint.
           rewrite (bind_lift_returned _ _ _ _ eq_refl), bind_missing, Htruthy, Hcontains.
           cbn [negb].
           rewrite (bind_lift_returned _ _ _ _ Hget), (bind_lift_returned _ _ _ _ Hstrip).
           rewrite Hempty. reflexivity.
        -- right. destruct data; try discriminate. destruct raw0; try discriminate.
           cbn in Hget. destruct (dict_get entries "message") as [v|] eqn:Hd;
             [|discriminate].
           injection Hget as ->. cbn in Hstrip. injection Hstrip as <-.
           exists entries, s. repeat split; auto. now apply String.eqb_neq.
      * left. exists 500, (exn_str e). split; [auto|]. intros session w. open_endpoint.
        rewrite (bind_lift_returned _ _ _ _ eq_refl), bind_missing, Htruthy, Hcontains.
        cbn [negb].
        rewrite (bind_lift_returned _ _ _ _ Hget), (bind_lift_raised _ _ _ _ Hstrip).
        reflexivity.
    + left. exists 500, (exn_str e). split; [auto|]. intros session w. open_endpoint.
      rewrite (bind_lift_returned _ _ _ _ eq_refl), bind_missing, Htruthy, Hcontains.
      cbn [negb]. rewrite (bind_lift_raised _ _ _ _ Hget). reflexivity.
  - left. exists 400, "message is required". split; [auto|]. intros session w.
    open_endpoint.
    rewrite (bind_lift_returned _ _ _ _ eq_refl), bind_missing, Htruthy, Hcontains.
    reflexivity.
  - left. exists 500, (exn_str e). split; [auto|]. intros session w. open_endpoint.
    rewrite (bind_lift_returned _ _ _ _ eq_refl), bind_missing, Htruthy, Hcontains.
    reflexivity.
Qed.

(** The refusals, one by one. *)
Lemma endpoint_refuses (data : value) (code : nat) (text : string)
    (session : Session) (w : world) :
  (truthy data = false /\ code = 400 /\ text = "message is required")
  \/ (truthy data = true
      /\ ((contains "message" data = Returned false
           /\ code = 400 /\ text = "message is required")
          \/ (exists e, contains "message" data = Raised e
                        /\ code = 500 /\ text = exn_str e)
          \/ (contains "message" data = Returned true
              /\ ((exists e, getitem data "message" = Raised e
                             /\ code = 500 /\ text = exn_str e)
                  \/ (exists raw0,
                        getitem data "message" = Returned raw0
                        /\ ((exists e, strip raw0 = Raised e
                                       /\ code = 500 /\ text = exn_str e)
                            \/ (strip raw0 = Returned EmptyString
                                /\ code = 400 /\ text = "message cannot be empty"))))))) ->
  chat_endpoint (Returned data) session w
  = mkRun (Returned (refusal code text, session)) w [].
Proof.
  intros H. open_endpoint. rewrite (bind_lift_returned _ _ _ _ eq_refl), bind_missing.
  destruct H as [(Hf & -> & ->)|(Ht & H)].
  { rewrite Hf. reflexivity. }
  rewrite Ht.
  destruct H as [(Hc & -> & ->)|[(e & Hc & -> & ->)|(Hc & H)]]; rewrite Hc;
    [reflexivity|reflexivity|]. cbn [negb].
  destruct H as [(e & Hg & -> & ->)|(raw0 & Hg & H)].
  { rewrite (bind_lift_raised _ _ _ _ Hg). reflexivity. }
  rewrite (bind_lift_returned _ _ _ _ Hg).
  destruct H as [(e & Hs & -> & ->)|(Hs & -> & ->)].
  - rewrite (bind_lift_raised _ _ _ _ Hs). reflexivity.
  - rewrite (bind_lift_returned _ _ _ _ Hs). reflexivity.
Qed.

(** [X9] Requests refused with 400. A body that is missing or falsy
    ([null], [{}], [[]], [""], [0], [false]) and a JSON object without the key
    ["message"] are answered 400 "message is required"; an object whose
    message is a string that strips to nothing is answered 400 "message cannot
    be empty". In each case no service is called and the session is returned
    as it was. *)
Theorem bad_requests_are_refused_with_400 :
  forall (session : Session) (w : world),
    (forall data,
        truthy data = false ->
        chat_endpoint (Returned data) session w
        = mkRun (Returned (refusal 400 "message is required", session)) w [])
    /\ (forall entries,
          dict_get entries "message" = None ->
          chat_endpoint (Returned (VDict entries)) session w
          = mkRun (Returned (refusal 400 "message is required", session)) w [])
    /\ (forall entries raw,
          message_request entries raw ->
          str_strip raw = EmptyString ->
          chat_endpoint (Returned (VDict entries)) session w
          = mkRun (Returned (refusal 400 "message cannot be empty", session)) w []).
Proof.
  intros session w. split; [|split].
  - intros data Hf. apply endpoint_refuses. auto.
  - intros entries Hnone. apply endpoint_refuses.
    destruct entries as [|entry entries]; [left; auto|].
    right. split; [reflexivity|]. left. unfold contains. rewrite Hnone. auto.
  - intros entries raw Hmsg Hempty. unfold message_request in Hmsg.
    destruct (dict_get_truthy _ _ _ Hmsg) as [Ht Hc].
    apply endpoint_refuses. right. split; [exact Ht|]. right. right.
    split; [exact Hc|]. right. exists (VStr raw). split.
    + cbn. now rewrite Hmsg.
    + right. cbn. rewrite Hempty. auto.
Qed.

(** [X10] Malformed requests are answered 500, not 400. When
    [request.get_json()] raises; when the body is [true] or a number other
    than zero (['message' in data] raises the [TypeError] of a membership
    test on the body); when it is a list holding the string ["message"] or a
    string containing it ([data['message']] raises the [TypeError] of a
    subscript on the body); and when it is an object whose ["message"] is not
    a string ([.strip] raises the [AttributeError] of that value): the
    endpoint answers 500 with [str(e)] of the exception raised, each with its
    own text, calls no service and returns the session as it was. *)
Theorem malformed_requests_are_answered_500 :
  forall (session : Session) (w : world),
    (forall e,
        chat_endpoint (Raised e) session w
        = mkRun (Returned (refusal 500 (exn_str e), session)) w [])
    /\ (forall data,
          truthy data = true ->
          (exists b, data = VBool b) \/ (exists n, data = VInt n)
          \/ (exists x, data = VFloat x) ->
          chat_endpoint (Returned data) session w
          = mkRun (Returned (refusal 500 (exn_str (TypeError Membership data)), session))
              w [])
    /\ (forall data,
          (exists items, data = VList items) \/ (exists s, data = VStr s) ->
          contains "message" data = Returned true ->
          chat_endpoint (Returned data) session w
          = mkRun (Returned (refusal 500 (exn_str (TypeError Subscript data)), session))
              w [])
    /\ (forall entries v,
          dict_get entries "message" = Some v ->
          (forall raw, v <> VStr raw) ->
          chat_endpoint (Returned (VDict entries)) session w
          = mkRun (Returned (refusal 500 (exn_str (AttributeError "strip" v)), session))
              w []).
Proof.
  intros session w. split; [|split; [|split]].
  - intros e. open_endpoint. now rewrite (bind_lift_raised _ _ _ _ eq_refl).
  - intros data Ht Hshape. apply endpoint_refuses. right. split; [exact Ht|].
    right. left. exists (TypeError Membership data).
    destruct Hshape as [(b & ->)|[(n & ->)|(x & ->)]]; auto.
  - intros data Hshape Hc. apply endpoint_refuses. right.
    assert (Ht : truthy data = true).
    { destruct Hshape as [(items & ->)|(s & ->)].
      - destruct items; [discriminate|reflexivity].
      - destruct s; [discriminate|reflexivity]. }
    split; [exact Ht|]. right. right. split; [exact Hc|]. left.
    exists (TypeError Subscript data).
    destruct Hshape as [(items & ->)|(s & ->)]; auto.
  - intros entries v Hget Hnot. destruct (dict_get_truthy _ _ _ Hget) as [Ht Hc].
    apply endpoint_refuses. right. split; [exact Ht|]. right. right.
    split; [exact Hc|]. right. exists v. split; [cbn; now rewrite Hget|].
    left. exists (AttributeError "strip" v). destruct v; auto. now destruct (Hnot s).
Qed.

(** [X11] A request with a message is served by [chat]. When the body is a
    JSON object whose ["message"] is a string that does not strip to nothing,
    the endpoint runs [chat] on the stripped message with the logs of the
    session (empty when absent); its service calls are those of [chat]. If
    [chat] returns its tuple the answer is sent with status 200 and the
    session takes the returned logs, items without ["plans"]; if [chat]
    returns [None] the unpacking raises [TypeError] and the status is 500 with
    the text of that error; if [chat] raises [e] the status is 500 with
    [str(e)]; in both the session is returned as it was. *)
Theorem message_is_stripped_and_served :
  forall (entries : list (string * value)) (raw : string) (session : Session) (w : world),
    message_request entries raw ->
    str_strip raw <> EmptyString ->
    let step := chat (str_strip raw) (get_or_empty (session_history session))
                  (get_or_empty (session_prev_questions session)) w in
    let served := chat_endpoint (Returned (VDict entries)) session w in
    calls served = calls step
    /\ after served = after step
    /\ (forall answer history' prev_questions',
          result step = Returned (Some (answer, history', prev_questions')) ->
          result served
          = Returned
              (mkResponse [("success", VBool true); ("response", VStr answer)] 200,
               mkSession
                 (Some (map (fun item => mkItem (user item) (bot item) None) history'))
                 (Some prev_questions')))
    /\ (result step = Returned None ->
        result served
        = Returned (refusal 500 (exn_str (TypeError Unpacking VNone)), session))
    /\ (forall e,
          result step = Raised e ->
          result served = Returned (refusal 500 (exn_str e), session)).
Proof.
  intros entries raw session w Hmsg Hnonempty. cbv zeta.
  rewrite (chat_endpoint_served _ _ session w Hmsg Hnonempty). cbv zeta.
  cbn [calls after result]. repeat split; auto.
  - intros answer history' prev_questions' H. now rewrite H.
  - intros H. now rewrite H.
  - intros e H. now rewrite H.
Qed.

(** [X12] The endpoint always answers. Whatever the request, the session and
    the services do, /chat does not raise: it answers with status 200, 400 or
    500, the ["success"] flag of the body is true exactly when the status is
    200, and the session is changed only by an answer with status 200. *)
Theorem chat_endpoint_always_answers :
  forall (request_json : Outcome value) (session : Session) (w : world),
  exists (resp : Response) (session' : Session),
    result (chat_endpoint request_json session w) = Returned (resp, session')
    /\ (status resp = 200 \/ status resp = 400 \/ status resp = 500)
    /\ dict_get (body resp) "success" = Some (VBool (Nat.eqb (status resp) 200))
    /\ (status resp <> 200 -> session' = session).
Proof.
  intros request_json session w.
  destruct (chat_endpoint_run request_json)
    as [(code & text & Hcode & Hrun)|(entries & raw & -> & Hmsg & Hnonempty)].
  - rewrite Hrun. exists (refusal code text), session. cbn [result refusal status body].
    destruct Hcode as [-> | ->]; repeat split; auto.
  - rewrite (chat_endpoint_served _ _ session w Hmsg Hnonempty). cbv zeta. cbn [result].
    destruct (result (chat _ _ _ w)) as [[[[answer h1] q1]|]|e];
      eexists; eexists; (split; [reflexivity|]); cbn [refusal status body];
      repeat split; auto; intros H; now contradiction H.
Qed.

(** [X13] Reset forgets the comparison. Whatever the session held, after
    [reset_conversation] a follow-up question is answered 200 with the
    instruction to ask a comparison first: only the classifier is called, and
    the session stays empty. *)
Theorem follow_up_after_reset_asks_for_a_comparison :
  forall (entries : list (string * value)) (raw : string) (session : Session) (w : world)
         (understanding premiums : value),
    message_request entries raw ->
    str_strip raw <> EmptyString ->
    result (understand_question (str_strip raw) [] w) = Returned understanding ->
    getitem understanding "question_type" = Returned (VStr "FOLLOW_UP") ->
    getitem understanding "premium_amounts" = Returned premiums ->
    chat_endpoint (Returned (VDict entries)) (snd (reset_conversation session)) w
    = mkRun (Returned
               (mkResponse [("success", VBool true);
                            ("response", VStr EMPTY_HISTORY_MESSAGE)] 200,
                mkSession (Some []) (Some [])))
        (after (understand_question (str_strip raw) [] w))
        (calls (understand_question (str_strip raw) [] w)).
Proof.
  intros entries raw session w understanding premiums Hmsg Hnonempty Hc Ht Hp.
  rewrite (chat_endpoint_served _ _ _ w Hmsg Hnonempty). cbv zeta.
  cbn [reset_conversation snd session_history session_prev_questions get_or_empty].
  now rewrite (chat_follow_up_empty _ [] _ _ _ Hc _ Ht _ Hp eq_refl eq_refl).
Qed.

(** [X14] Loading the page keeps the conversation. [home] only fills in the
    keys the session lacks: the logs read from the session are the same
    before and after, a second load changes nothing, and /chat gives the same
    answer with the same service calls whether or not the page was loaded
    first. *)
Theorem home_keeps_the_conversation :
  forall (session : Session),
    get_or_empty (session_history (home session))
    = get_or_empty (session_history session)
    /\ get_or_empty (session_prev_questions (home session))
       = get_or_empty (session_prev_questions session)
    /\ home (home session) = home session
    /\ (forall request_json w,
          exists resp s1 s2,
            result (chat_endpoint request_json session w) = Returned (resp, s1)
            /\ result (chat_endpoint request_json (home session) w) = Returned (resp, s2)
            /\ calls (chat_endpoint request_json (home session) w)
               = calls (chat_endpoint request_json session w)
            /\ home s2 = home s1).
Proof.
  intros session.
  assert (Hh : get_or_empty (session_history (home session))
               = get_or_empty (session_history session))
    by (destruct session as [[h|] [pq|]]; reflexivity).
  assert (Hq : get_or_empty (session_prev_questions (home session))
               = get_or_empty (session_prev_questions session))
    by (destruct session as [[h|] [pq|]]; reflexivity).
  assert (Hidem : home (home session) = home session)
    by (destruct session as [[h|] [pq|]]; reflexivity).
  repeat split; auto.
  intros request_json w.
  destruct (chat_endpoint_run request_json)
    as [(code & text & _ & Hrun)|(entries & raw & -> & Hmsg & Hnonempty)].
  - rewrite !Hrun. exists (refusal code text), session, (home session).
    cbn [result calls]. auto.
  - rewrite !(chat_endpoint_served _ _ _ w Hmsg Hnonempty). cbv zeta.
    rewrite Hh, Hq. cbn [result calls].
    destruct (result (chat _ _ _ w)) as [[[[answer h1] q1]|]|e];
      do 3 eexists; repeat split; auto.
Qed.

(** ** The command-line loop *)

Section Loop.

Variable str_lower : string -> string.

Lemma main_loop_chat (line : string) (rest : list string) (history : list HistoryItem)
    (prev_questions : list string) (w : world) :
  is_exit_command str_lower (str_strip line) = false ->
  str_strip line <> EmptyString ->
  main_loop str_lower (line :: rest) history prev_questions w
  = let step := chat (str_strip line) history prev_questions w in
    match result step with
    | Returned (Some (answer, history', prev_questions')) =>
        let tail := main_loop str_lower rest history' prev_questions' (after step) in
        mkRun (match result tail with
               | Returned (answers, h, q, ending) =>
                   Returned (answer :: answers, h, q, ending)
               | Raised e => Raised e
               end)
          (after tail) (calls step ++ calls tail)%list
    | Returned None => mkRun (Raised (TypeError Unpacking VNone)) (after step) (calls step)
    | Raised e => mkRun (Raised e) (after step) (calls step)
    end.
Proof.
  intros Hexit Hnonempty. apply String.eqb_neq in Hnonempty.
  cbn [main_loop]. cbv zeta. rewrite Hexit, Hnonempty.
  unfold bind at 1. cbv zeta.
  destruct (result (chat (str_strip line) history prev_questions w))
    as [[[[answer h1] q1]|]|e]; [| |reflexivity].
  - unfold unpack, bind, ret, prepend. cbn [result after calls].
    destruct (result (main_loop str_lower rest h1 q1 _)) as [[[[answers h2] q2] ending]|e];
      cbn [result after calls]; rewrite ?app_nil_r; reflexivity.
  - unfold unpack, bind, raise, prepend. cbn. rewrite app_nil_r. reflexivity.
Qed.

Lemma main_loop_run (stdin : list string) :
  forall (history : list HistoryItem) (prev_questions : list string) (w : world),
    main_loop str_lower stdin history prev_questions w
    = let run := process_utterances (utterances_of str_lower stdin)
                   history prev_questions w in
      mkRun (match result run with
             | Returned (answers, history', prev_questions') =>
                 Returned (answers, history', prev_questions', ending_of str_lower stdin)
             | Raised e => Raised e
             end)
        (after run) (calls run).
Proof.
  induction stdin as [|line rest IH]; intros history prev_questions w; [reflexivity|].
  destruct (is_exit_command str_lower (str_strip line)) eqn:Hexit.
  { cbn [main_loop utterances_of ending_of]. cbv zeta. rewrite Hexit. reflexivity. }
  destruct (String.eqb (str_strip line) EmptyString) eqn:Hempty.
  { cbn [main_loop utterances_of ending_of]. cbv zeta. rewrite Hexit, Hempty. apply IH. }
  rewrite main_loop_chat by (auto; now apply String.eqb_neq).
  cbn [utterances_of ending_of]. cbv zeta. rewrite Hexit, Hempty.
  rewrite process_utterances_cons. cbv zeta.
  destruct (result (chat (str_strip line) history prev_questions w))
    as [[[[answer h1] q1]|]|e]; [| reflexivity | reflexivity].
  rewrite IH. cbv zeta. cbn [result after calls].
  destruct (result (process_utterances _ h1 q1 _)) as [[[answers h2] q2]|e]; reflexivity.
Qed.

(** [X15] The command-line loop. On any sequence of input lines, the loop of
    main.py runs [chat] exactly on the stripped lines that are not empty, in
    order, up to the first line whose stripped, lower-cased text is exit or
    quit:
    its answers, final state, final world and service calls are those of
    feeding these utterances one after the other to [chat], each in the state
    the one before returned; and it ends at the exit command if there is one,
    else when the input runs out. *)
Theorem main_loop_processes_the_utterances :
  forall (stdin : list string) (history : list HistoryItem)
         (prev_questions : list string) (w : world),
    let run := process_utterances (utterances_of str_lower stdin)
                 history prev_questions w in
    main_loop str_lower stdin history prev_questions w
    = mkRun (match result run with
             | Returned (answers, history', prev_questions') =>
                 Returned (answers, history', prev_questions', ending_of str_lower stdin)
             | Raised e => Raised e
             end)
        (after run) (calls run).
Proof. intros stdin history prev_questions w. apply main_loop_run. Qed.

Lemma utterances_until_exit (before : list string) (line : string) (rest : list string) :
  is_exit_command str_lower (str_strip line) = true ->
  utterances_of str_lower (before ++ line :: rest) = utterances_of str_lower before
  /\ (ending_of str_lower before = EndOfInput ->
      ending_of str_lower (before ++ line :: rest) = UserExit)
  /\ (ending_of str_lower before = UserExit ->
      ending_of str_lower (before ++ line :: rest) = UserExit).
Proof.
  intros Hexit. induction before as [|l before IH]; cbn [app utterances_of ending_of].
  - cbv zeta. rewrite Hexit. auto.
  - cbv zeta. destruct IH as (IH1 & IH2 & IH3).
    destruct (is_exit_command str_lower (str_strip l)); [auto|].
    destruct (String.eqb (str_strip l) EmptyString); rewrite IH1; auto.
Qed.

(** [X16] Nothing is processed after an exit command, and blank lines do
    nothing. The lines that follow a line whose stripped, lower-cased text is exit or
    quit have no effect
    on the run of the loop; a line that strips to nothing (and is not an exit
    command) can be removed from the input without changing the run: no
    service is called for it and the state is not touched. *)
Theorem exit_stops_and_blank_lines_are_skipped :
  forall (before : list string) (line : string) (rest : list string)
         (history : list HistoryItem) (prev_questions : list string) (w : world),
    (is_exit_command str_lower (str_strip line) = true ->
     main_loop str_lower (before ++ line :: rest) history prev_questions w
     = main_loop str_lower (before ++ [line]) history prev_questions w)
    /\ (is_exit_command str_lower (str_strip line) = false ->
        str_strip line = EmptyString ->
        main_loop str_lower (before ++ line :: rest) history prev_questions w
        = main_loop str_lower (before ++ rest) history prev_questions w).
Proof.
  intros before line rest history prev_questions w. split.
  - intros Hexit. rewrite !main_loop_run.
    destruct (utterances_until_exit before line rest Hexit) as (Hu & He1 & He2).
    destruct (utterances_until_exit before line [] Hexit) as (Hu' & He1' & He2').
    rewrite Hu, Hu'.
    destruct (ending_of str_lower before); [rewrite He2, He2'|rewrite He1, He1']; auto.
  - intros Hexit Hempty. rewrite !main_loop_run.
    assert (H : utterances_of str_lower (before ++ line :: rest)
                = utterances_of str_lower (before ++ rest)
                /\ ending_of str_lower (before ++ line :: rest)
                   = ending_of str_lower (before ++ rest)).
    { induction before as [|l before IH]; cbn [app utterances_of ending_of]; cbv zeta.
      - rewrite Hexit, Hempty. auto.
      - destruct IH as [IH1 IH2].
        destruct (is_exit_command str_lower (str_strip l)); [auto|].
        destruct (String.eqb (str_strip l) EmptyString); rewrite IH1; auto. }
    destruct H as [-> ->]. reflexivity.
Qed.

End Loop.

End MoreProperties.

(** * Further concrete conversations *)

Import DemoMore.

(** The cached plans and metadata make no difference to what is sent. *)
Lemma generator_reads_text_only_witness :
  generate_answer (S := services) Q_CHEAPER [PLAN_A] [TURN_COMPARE]
    (scripted [] [Returned A_CHEAPER])
  = generate_answer (S := services) Q_CHEAPER [PLAN_A_BARE]
      [STORED_COMPARE] (scripted [] [Returned A_CHEAPER]).
Proof.
  apply (generator_reads_text_only (S := services) Q_CHEAPER
           [PLAN_A] [PLAN_A_BARE] [TURN_COMPARE] [STORED_COMPARE]
           (scripted [] [Returned A_CHEAPER])); reflexivity.
Defined.

(** The comparison of three plans: the generated answer is the committed one. *)
Lemma generated_answer_is_committed_witness :
  exists records : list Document,
    advisor_messages Q_COMPARE COMPARED [] = advisor_messages Q_COMPARE records []
    /\ result (chat (B := Demo.builtins) (S := services) Q_COMPARE [] []
                 (scripted [Returned NEW_REPLY] [Returned A_COMPARE]))
       = Returned (Some (content (AIMessage A_COMPARE),
                         [] ++ [mkItem Q_COMPARE (content (AIMessage A_COMPARE))
                                  (Some records)],
                         [] ++ [Q_COMPARE]))%list.
Proof.
  apply (generated_answer_is_committed (B := Demo.builtins) (S := services) Q_COMPARE [] []
           (scripted [Returned NEW_REPLY] [Returned A_COMPARE])
           (advisor_messages Q_COMPARE COMPARED []) (AIMessage A_COMPARE)).
  vm_compute. do 4 right. left. reflexivity.
Defined.

(** A comparison of three plans and two follow-ups. *)
Lemma comparison_records_serve_follow_ups_witness :
  let w := scripted [Returned NEW_REPLY; Returned FOLLOW_UP_REPLY; Returned FOLLOW_UP_REPLY]
             [Returned A_COMPARE; Returned A_CHEAPER; Returned A_DEDUCTIBLE] in
  let step := chat (B := Demo.builtins) (S := services) Q_COMPARE [] [] w in
  let tail := process_utterances (B := Demo.builtins) (S := services)
                [Q_CHEAPER; Q_DEDUCTIBLE] [TURN_COMPARE] [Q_COMPARE] (after step) in
  exists (premiums : value) (fetched : list Document) (new : list HistoryItem),
    result (get_plans (B := Demo.builtins) (S := services) premiums
              (after (understand_question (B := Demo.builtins) (S := services)
                        Q_COMPARE [] w)))
    = Returned fetched
    /\ fetched <> []
    /\ [TURN_COMPARE; TURN_CHEAPER; TURN_DEDUCTIBLE]
       = ([] ++ mkItem Q_COMPARE A_COMPARE (Some fetched) :: new)%list
    /\ map user new = [Q_CHEAPER; Q_DEDUCTIBLE]
    /\ Forall (fun item => plans item = Some fetched) new
    /\ forallb (fun c => negb (is_store_call c)) (calls tail) = true.
Proof.
  apply (comparison_records_serve_follow_ups (B := Demo.builtins) (S := services)
           Q_COMPARE [Q_CHEAPER; Q_DEDUCTIBLE] [] []
           (scripted [Returned NEW_REPLY; Returned FOLLOW_UP_REPLY; Returned FOLLOW_UP_REPLY]
              [Returned A_COMPARE; Returned A_CHEAPER; Returned A_DEDUCTIBLE])
           A_COMPARE [TURN_COMPARE] [Q_COMPARE] [A_CHEAPER; A_DEDUCTIBLE]
           [TURN_COMPARE; TURN_CHEAPER; TURN_DEDUCTIBLE]
           [Q_COMPARE; Q_CHEAPER; Q_DEDUCTIBLE]);
    vm_compute; reflexivity.
Defined.

(** The conversation of four utterances, two of them committed. *)
Lemma question_log_is_users_of_history_witness :
  question_log_matches [TURN_COMPARE; TURN_CHEAPER] [Q_COMPARE; Q_CHEAPER].
Proof.
  apply (proj1 (proj2 (question_log_is_users_of_history (B := Demo.builtins)
                         (S := services)))
           [Q_COMPARE; Q_CHEAPER; Q_WEATHER; Q_UNKNOWN] [] []
           (scripted [Returned NEW_REPLY; Returned FOLLOW_UP_REPLY;
                      Returned INVALID_REPLY; Returned NEW_UNKNOWN_REPLY]
              [Returned A_COMPARE; Returned A_CHEAPER])
           [A_COMPARE; A_CHEAPER;
            INVALID_PREFIX ++ "Not insurance related";
            "No plans found for premiums: [11111, 99999]"]).
  - reflexivity.
  - vm_compute. reflexivity.
Defined.

(** The classifier says NEW and gives [null] for the premiums. *)
Lemma new_intent_without_a_list_raises_witness :
  chat (B := DemoMore.builtins) (S := services) Q_COMPARE [TURN_COMPARE] [Q_COMPARE]
    (scripted [Returned NEW_NULL_REPLY] [])
  = mkRun (S := services) (Raised (TypeError Iteration VNone))
      (after (understand_question (B := DemoMore.builtins) (S := services) Q_COMPARE
                [Q_COMPARE] (scripted [Returned NEW_NULL_REPLY] [])))
      (calls (understand_question (B := DemoMore.builtins) (S := services) Q_COMPARE
                [Q_COMPARE] (scripted [Returned NEW_NULL_REPLY] []))).
Proof.
  apply (new_intent_without_a_list_raises (B := DemoMore.builtins) (S := services)
           Q_COMPARE [TURN_COMPARE] [Q_COMPARE] (scripted [Returned NEW_NULL_REPLY] [])
           (reply_value "NEW" VNone "premiums not extracted") VNone).
  - vm_compute. reflexivity.
  - reflexivity.
  - reflexivity.
  - left. reflexivity.
Defined.

(** No body, a body without a message, a message of spaces. *)
Lemma bad_requests_are_refused_with_400_witness :
  let w := scripted [] [] in
  chat_endpoint (B := Demo.builtins) (S := services) (Returned VNone) STORED_SESSION w
  = mkRun (S := services) (Returned (refusal 400 "message is required", STORED_SESSION)) w []
  /\ chat_endpoint (B := Demo.builtins) (S := services)
       (Returned (VDict [("text", VStr Q_CHEAPER)])) STORED_SESSION w
     = mkRun (S := services) (Returned (refusal 400 "message is required", STORED_SESSION)) w []
  /\ chat_endpoint (B := Demo.builtins) (S := services)
       (Returned (body_with (VStr "   "))) STORED_SESSION w
     = mkRun (S := services) (Returned (refusal 400 "message cannot be empty", STORED_SESSION)) w [].
Proof.
  pose proof (bad_requests_are_refused_with_400 (B := Demo.builtins) (S := services)
                STORED_SESSION (scripted [] [])) as (Hfalsy & Hnokey & Hblank).
  split; [|split].
  - apply Hfalsy. reflexivity.
  - apply Hnokey. reflexivity.
  - apply (Hblank [("message", VStr "   ")] "   "); reflexivity.
Defined.

(** A body that is [true], a list holding "message", a message that is 5. *)
Lemma malformed_requests_are_answered_500_witness :
  let w := scripted [] [] in
  chat_endpoint (B := Demo.builtins) (S := services) (Returned (VBool true))
    STORED_SESSION w
  = mkRun (S := services)
      (Returned (refusal 500 "argument of type 'bool' is not iterable", STORED_SESSION))
      w []
  /\ chat_endpoint (B := Demo.builtins) (S := services)
       (Returned (VList [VStr "message"])) STORED_SESSION w
     = mkRun (S := services)
         (Returned (refusal 500 "list indices must be integers or slices, not str",
                    STORED_SESSION))
         w []
  /\ chat_endpoint (B := Demo.builtins) (S := services)
       (Returned (body_with (VInt 5))) STORED_SESSION w
     = mkRun (S := services)
         (Returned (refusal 500 "'int' object has no attribute 'strip'", STORED_SESSION))
         w [].
Proof.
  pose proof (malformed_requests_are_answered_500 (B := Demo.builtins) (S := services)
                STORED_SESSION (scripted [] [])) as (_ & Hscalar & Hseq & Hmsg).
  split; [|split].
  - apply Hscalar; [reflexivity|]. left. exists true. reflexivity.
  - apply Hseq; [|reflexivity]. left. exists [VStr "message"]. reflexivity.
  - apply (Hmsg [("message", VInt 5)] (VInt 5)); [reflexivity|]. discriminate.
Defined.

(** A follow-up with spaces around it, sent to the stored session; a greeting,
    for which [chat] returns [None]; a question the classifier answers with
    [[]], on which [chat] raises. *)
Lemma message_is_stripped_and_served_witness :
  result (chat_endpoint (B := Demo.builtins) (S := services)
            (Returned (body_with (VStr "  which is cheaper?  "))) STORED_SESSION
            (scripted [Returned FOLLOW_UP_REPLY] [Returned A_CHEAPER]))
  = Returned
      (mkResponse [("success", VBool true); ("response", VStr A_CHEAPER)] 200,
       mkSession
         (Some (map (fun item => mkItem (user item) (bot item) None)
                  [STORED_COMPARE; mkItem Q_CHEAPER A_CHEAPER (Some [])]))
         (Some [Q_COMPARE; Q_CHEAPER]))
  /\ result (chat_endpoint (B := Demo.builtins) (S := services)
               (Returned (body_with (VStr "hello"))) STORED_SESSION
               (scripted [Returned GREETING_REPLY] []))
     = Returned (refusal 500 "cannot unpack non-iterable NoneType object", STORED_SESSION)
  /\ result (chat_endpoint (B := Demo.builtins) (S := services)
               (Returned (body_with (VStr Q_COMPARE))) STORED_SESSION
               (scripted [Returned LIST_REPLY] []))
     = Returned (refusal 500 "list indices must be integers or slices, not str",
                 STORED_SESSION).
Proof.
  split; [|split].
  - apply (proj1 (proj2 (proj2
             (message_is_stripped_and_served (B := Demo.builtins) (S := services)
                [("message", VStr "  which is cheaper?  ")] "  which is cheaper?  "
                STORED_SESSION (scripted [Returned FOLLOW_UP_REPLY] [Returned A_CHEAPER])
                eq_refl ltac:(vm_compute; discriminate))))).
    vm_compute. reflexivity.
  - apply (proj1 (proj2 (proj2 (proj2
             (message_is_stripped_and_served (B := Demo.builtins) (S := services)
                [("message", VStr "hello")] "hello"
                STORED_SESSION (scripted [Returned GREETING_REPLY] [])
                eq_refl ltac:(vm_compute; discriminate)))))).
    vm_compute. reflexivity.
  - apply (proj2 (proj2 (proj2 (proj2
             (message_is_stripped_and_served (B := Demo.builtins) (S := services)
                [("message", VStr Q_COMPARE)] Q_COMPARE
                STORED_SESSION (scripted [Returned LIST_REPLY] [])
                eq_refl ltac:(vm_compute; discriminate)))))
           (TypeError Subscript (VList []))).
    vm_compute. reflexivity.
Defined.

(** An unrecognised intent at the serving boundary. *)
Lemma chat_endpoint_always_answers_witness :
  exists (resp : Response) (session' : Session),
    result (chat_endpoint (B := Demo.builtins) (S := services)
              (Returned (body_with (VStr "hello"))) STORED_SESSION
              (scripted [Returned GREETING_REPLY] []))
    = Returned (resp, session')
    /\ (status resp = 200 \/ status resp = 400 \/ status resp = 500)
    /\ dict_get (body resp) "success" = Some (VBool (Nat.eqb (status resp) 200))
    /\ (status resp <> 200 -> session' = STORED_SESSION).
Proof.
  apply (chat_endpoint_always_answers (B := Demo.builtins) (S := services)
           (Returned (body_with (VStr "hello"))) STORED_SESSION
           (scripted [Returned GREETING_REPLY] [])).
Defined.

(** A follow-up right after a reset of the stored session. *)
Lemma follow_up_after_reset_asks_for_a_comparison_witness :
  result (chat_endpoint (B := Demo.builtins) (S := services)
            (Returned (body_with (VStr Q_CHEAPER)))
            (snd (reset_conversation STORED_SESSION))
            (scripted [Returned FOLLOW_UP_REPLY] [Returned A_CHEAPER]))
  = Returned (mkResponse [("success", VBool true);
                          ("response", VStr EMPTY_HISTORY_MESSAGE)] 200,
              mkSession (Some []) (Some [])).
Proof.
  exact (f_equal (@result services _)
           (follow_up_after_reset_asks_for_a_comparison
             (B := Demo.builtins) (S := services)
             [("message", VStr Q_CHEAPER)] Q_CHEAPER STORED_SESSION
             (scripted [Returned FOLLOW_UP_REPLY] [Returned A_CHEAPER])
             (reply_value "FOLLOW_UP" VNone "Asking about previous results") VNone
             eq_refl ltac:(vm_compute; discriminate) eq_refl eq_refl eq_refl)).
Defined.

(** A comparison, a blank line, EXIT, and a question that is never read. *)
Lemma exit_stops_and_blank_lines_are_skipped_witness :
  let w := scripted [Returned NEW_REPLY; Returned FOLLOW_UP_REPLY]
             [Returned A_COMPARE; Returned A_CHEAPER] in
  main_loop (B := Demo.builtins) (S := services) lower
    ([Q_COMPARE; "   "] ++ " EXIT " :: [Q_CHEAPER]) [] [] w
  = main_loop (B := Demo.builtins) (S := services) lower
      ([Q_COMPARE; "   "] ++ [" EXIT "]) [] [] w
  /\ main_loop (B := Demo.builtins) (S := services) lower
       ([Q_COMPARE] ++ "   " :: [Q_CHEAPER]) [] [] w
     = main_loop (B := Demo.builtins) (S := services) lower
         ([Q_COMPARE] ++ [Q_CHEAPER]) [] [] w.
Proof.
  split.
  - apply (proj1 (exit_stops_and_blank_lines_are_skipped (B := Demo.builtins)
                    (S := services) lower [Q_COMPARE; "   "] " EXIT " [Q_CHEAPER] [] []
                    (scripted [Returned NEW_REPLY; Returned FOLLOW_UP_REPLY]
                       [Returned A_COMPARE; Returned A_CHEAPER]))).
    reflexivity.
  - apply (proj2 (exit_stops_and_blank_lines_are_skipped (B := Demo.builtins)
                    (S := services) lower [Q_COMPARE] "   " [Q_CHEAPER] [] []
                    (scripted [Returned NEW_REPLY; Returned FOLLOW_UP_REPLY]
                       [Returned A_COMPARE; Returned A_CHEAPER]))); reflexivity.
Defined.

(** A greeting, which no route answers. *)
Lemma uncommitted_utterance_is_not_generated_witness :
  forallb (fun c => negb (is_generator_call c))
    (calls (chat (B := Demo.builtins) (S := services) "hello" [TURN_COMPARE] [Q_COMPARE]
              (scripted [Returned GREETING_REPLY] [Returned A_CHEAPER])))
  = true.
Proof.
  apply (uncommitted_utterance_is_not_generated (B := Demo.builtins) (S := services)
           "hello" [TURN_COMPARE] [Q_COMPARE]
           (scripted [Returned GREETING_REPLY] [Returned A_CHEAPER]) None).
  - vm_compute. reflexivity.
  - left. reflexivity.
Defined.
